(** * OpenFlow SDK: the execution / poll lifecycle of [src/index.js]

    A shallow embedding of the [OpenFlow] client class: its constructor,
    [run], [_executeWorkflow], [_pollForCompletion], [_getWorkflowState],
    [_sleep] and [getState].  The asynchronous methods become computations
    in a small state-and-exception monad over a [World] that holds the
    scripted replies of the remote server and the chronological trace of
    everything the client did to the outside (transport calls and sleeps). *)

From stdpp Require Import base option list strings gmap pretty.
From Equations Require Import Equations.

Local Open Scope string_scope.
Local Open Scope list_scope.
Local Open Scope Z_scope.

(** ** JavaScript values the client handles *)

(** JSON documents: workflow inputs and outputs ([any] in [index.d.ts]). *)
#[local] Unset Elimination Schemes.
Inductive Json :=
| JNull
| JBool (b : bool)
| JNum (n : Z)
| JStr (s : string)
| JArr (items : list Json)
| JObj (fields : list (string * Json)).
#[local] Set Elimination Schemes.

(** A thrown JavaScript error object: its [name] and its [message]. *)
Record JsError := mkJsError { name : string; message : string }.

(** [new Error(msg)] *)
Definition Error (msg : string) : JsError := mkJsError "Error" msg.
(** Errors raised by the runtime itself rather than by a [throw] statement. *)
Definition TypeError (msg : string) : JsError := mkJsError "TypeError" msg.
Definition SyntaxError (msg : string) : JsError := mkJsError "SyntaxError" msg.

(** Truthiness of the two primitive types the options use.  Numbers are
    integers here; the only falsy one is [0]. *)
Definition truthyString (s : string) : bool := negb (String.eqb s "").
Definition truthyNumber (n : Z) : bool := negb (n =? 0).

(** [x || d] for an optional field ([None] is [undefined]). *)
Definition orElse {A} (truthy : A → bool) (x : option A) (d : A) : A :=
  match x with
  | Some v => if truthy v then v else d
  | None => d
  end.

(** [x || null] *)
Definition orNull {A} (truthy : A → bool) (x : option A) : option A :=
  match x with
  | Some v => if truthy v then Some v else None
  | None => None
  end.

(** [!x] for an optional string. *)
Definition falsy (x : option string) : bool :=
  match x with
  | Some v => negb (truthyString v)
  | None => true
  end.

(** ** Wire format *)

(** The nested [data] object of a workflow state ([index.d.ts]). *)
Record StateData := mkStateData {
  sd_status : string;
  sd_workflowId : string;
  sd_executionId : string;
  sd_input : Json;
  sd_output : option Json;
  sd_startTime : option string;
  sd_completedTime : option string;
  sd_error : option string
}.

(** The object [response.json()] resolves to.  One record serves both
    endpoints: the submission acknowledgement reads [pieceCid] and
    [provider], the state query reads [data].  [data] is optional because
    the client dereferences it ([state.data.error], [result.data.output]),
    so its absence changes what the client does. *)
Record Payload := mkPayload {
  p_success : bool;
  p_error : option string;
  p_executionId : string;
  p_workflowId : string;
  p_ipfsCid : string;
  p_pieceCid : string;
  p_provider : string;
  p_status : string;
  p_data : option StateData
}.

(** An HTTP response as the client reads it: [status], the body as
    [text()], and the body as [json()] ([None]: the body is not JSON). *)
Record Response := mkResponse {
  r_status : Z;
  r_text : string;
  r_json : option Payload
}.

(** [response.ok]: the status is in the range 200-299. *)
Definition ok (r : Response) : bool :=
  (200 <=? r_status r) && (r_status r <=? 299).

Inductive Method := GET | POST.

(** The [init] argument of [fetch] together with the URL.  [req_body] is the
    value handed to [JSON.stringify]. *)
Record Request := mkRequest {
  req_url : string;
  req_method : Method;
  req_headers : gmap string string;
  req_body : option Json
}.

(** Which function performed the call: the global [fetch], or the
    payment-signing wrapper built by [wrapFetchWithPayment]. *)
Inductive Account := LocalAccount (key : string).
Record WalletClient := createWalletClient {
  wc_account : Account;
  wc_chain : string
}.
Definition baseSepolia : string := "base-sepolia".
Inductive X402Fetch := wrapFetchWithPayment (walletClient : WalletClient).

Inductive Transport := GlobalFetch | SignedFetch (f : X402Fetch).

(** ** The outside world *)

Inductive Event :=
| Call (via : Transport) (req : Request)
| Sleep (ms : Z).

(** What a transport call settles to: a response, or a rejection
    (network-level fault). *)
Inductive FetchOutcome :=
| Respond (r : Response)
| Reject (e : JsError).

(** The server is a script: the n-th transport call settles to the n-th
    pending outcome.  [trace] is what the client has done so far, oldest
    first. *)
Record World := mkWorld {
  pending : list FetchOutcome;
  trace : list Event
}.

Definition record (e : Event) (w : World) : World :=
  mkWorld (pending w) (trace w ++ [e]).

(** ** The monad of asynchronous methods *)

Definition M (A : Type) : Type := World → (JsError + A) * World.

#[global] Instance M_ret : MRet M := λ A (x : A) w, (inr x, w).
#[global] Instance M_bind : MBind M := λ A B (f : A → M B) (m : M A) w,
  match m w with
  | (inl e, w') => (inl e, w')
  | (inr x, w') => f x w'
  end.
Definition throw {A} (e : JsError) : M A := λ w, (inl e, w).

(** A transport call: logged, then settled by the script.  An exhausted
    script is a server that no longer answers. *)
Definition call (via : Transport) (req : Request) : M Response := λ w,
  let w' := record (Call via req) w in
  match pending w with
  | Respond r :: rest => (inr r, mkWorld rest (trace w'))
  | Reject e :: rest => (inl e, mkWorld rest (trace w'))
  | [] => (inl (TypeError "fetch failed"), w')
  end.

Definition fetch : Request → M Response := call GlobalFetch.

(** [response.json()] *)
Definition json (r : Response) : M Payload :=
  match r_json r with
  | Some p => mret p
  | None => throw (SyntaxError "Unexpected token in JSON")
  end.

(** ** The client *)

Record OpenFlow := mkOpenFlow {
  privateKey : option string;
  baseUrl : string;
  pollInterval : Z;
  maxPollAttempts : Z;
  x402Fetch : option X402Fetch
}.

(** [index.d.ts]: every option may be left out. *)
Record OpenFlowOptions := mkOptions {
  opt_privateKey : option string;
  opt_baseUrl : option string;
  opt_pollInterval : option Z;
  opt_maxPollAttempts : option Z
}.

Record WorkflowConfig := mkConfig {
  cfg_input : option Json;
  cfg_xPayment : option string;
  cfg_testMode : option bool
}.

Record ExecutionHandle := mkHandle {
  h_executionId : string;
  h_workflowId : string;
  h_ipfsCid : string;
  h_pieceCid : string;
  h_provider : string;
  h_status : string
}.

Record WorkflowState := mkState {
  st_executionId : string;
  st_workflowId : string;
  st_ipfsCid : string;
  st_status : string;
  st_data : option StateData
}.

Record WorkflowResult := mkResult {
  res_executionId : string;
  res_workflowId : string;
  res_status : string;
  res_output : option Json;
  res_ipfsCid : string;
  res_pieceCid : string;
  res_provider : string;
  res_completedTime : option string
}.

Definition jsonHeaders : gmap string string :=
  {[ "Content-Type" := "application/json" ]}.

(** A header value is converted to a string by the Fetch API. *)
Definition headerValue (x : option string) : string :=
  default "undefined" x.

(** [_getWorkflowState(executionId)] *)
Definition _getWorkflowState (this : OpenFlow) (executionId : string)
  : M WorkflowState :=
  let url := baseUrl this +:+ "/workflow-state/" +:+ executionId in
  response ← fetch (mkRequest url GET jsonHeaders None);
  if negb (ok response) then
    let errorText := r_text response in
    throw (Error ("Failed to get workflow state: "
                  +:+ pretty (r_status response) +:+ " - " +:+ errorText))
  else
    data ← json response;
    if negb (p_success data) then
      throw (Error ("Failed to get workflow state: "
                    +:+ orElse truthyString (p_error data) "Unknown error"))
    else
      mret (mkState (p_executionId data) (p_workflowId data)
                    (p_ipfsCid data) (p_status data) (p_data data)).

(** [getState(executionId)] *)
Definition getState (this : OpenFlow) (executionId : string)
  : M WorkflowState :=
  _getWorkflowState this executionId.

(** [_sleep(ms)]: the only effect of awaiting the timer is the delay. *)
Definition _sleep (ms : Z) : M unit := λ w, (inr (), record (Sleep ms) w).

(** [_executeWorkflow(slug, input, xPayment, testMode)] *)
Definition _executeWorkflow (this : OpenFlow) (slug : string) (input : Json)
    (xPayment : option string) (testMode : bool) : M ExecutionHandle :=
  let endpoint := if testMode then "/test-workflow" else "/workflow/:slug" in
  let url := baseUrl this +:+ endpoint in
  let body := JObj [("slug", JStr slug); ("input", input)] in
  response ←
    match x402Fetch this with
    | Some f =>
        call (SignedFetch f) (mkRequest url POST jsonHeaders (Some body))
    | None =>
        fetch (mkRequest url POST
                 (<["X-Payment" := headerValue xPayment]> jsonHeaders)
                 (Some body))
    end;
  if negb (ok response) then
    let errorText := r_text response in
    throw (Error ("Workflow execution failed: "
                  +:+ pretty (r_status response) +:+ " - " +:+ errorText))
  else
    data ← json response;
    if negb (p_success data) then
      throw (Error ("Workflow execution failed: "
                    +:+ orElse truthyString (p_error data) "Unknown error"))
    else
      mret (mkHandle (p_executionId data) (p_workflowId data)
                     (p_ipfsCid data) (p_pieceCid data) (p_provider data)
                     (p_status data)).

(** Reading a property of [state.data]: a [TypeError] when [data] is
    [undefined]. *)
Definition dataOf (state : WorkflowState) (prop : string) : M StateData :=
  match st_data state with
  | Some d => mret d
  | None =>
      throw (TypeError ("Cannot read properties of undefined (reading '"
                        +:+ prop +:+ "')"))
  end.

(** The [while (attempts < this.maxPollAttempts)] loop of
    [_pollForCompletion], entered with the counter at [attempts]. *)
Equations? pollLoop (this : OpenFlow) (executionId : string) (attempts : Z)
  : M WorkflowState by wf (Z.to_nat (maxPollAttempts this - attempts)) lt :=
  pollLoop this executionId attempts
    with decide (attempts < maxPollAttempts this) => {
    | left _ =>
        state ← _getWorkflowState this executionId;
        if decide (st_status state = "completed") then mret state
        else if decide (st_status state = "failed") then
          d ← dataOf state "error";
          throw (Error ("Workflow execution failed: "
                        +:+ orElse truthyString (sd_error d) "Unknown error"))
        else
          _ ← _sleep (pollInterval this);
          pollLoop this executionId (attempts + 1)
    | right _ =>
        throw (Error ("Workflow execution timeout after "
                      +:+ pretty (maxPollAttempts this) +:+ " attempts")) }.
Proof. lia. Qed.

(** [_pollForCompletion(executionId)] *)
Definition _pollForCompletion (this : OpenFlow) (executionId : string)
  : M WorkflowState :=
  pollLoop this executionId 0.

(** [run(slug, config)] *)
Definition run (this : OpenFlow) (slug : string) (config : WorkflowConfig)
  : M WorkflowResult :=
  let input := default (JObj []) (cfg_input config) in
  let xPayment := cfg_xPayment config in
  let testMode := default true (cfg_testMode config) in
  if falsy (privateKey this) && falsy xPayment then
    throw (Error "Either privateKey must be provided in OpenFlow constructor or xPayment header must be provided in config")
  else
    execution ← _executeWorkflow this slug input xPayment testMode;
    result ← _pollForCompletion this (h_executionId execution);
    d ← dataOf result "output";
    mret (mkResult (h_executionId execution) (h_workflowId execution)
                   (st_status result) (sd_output d) (st_ipfsCid result)
                   (h_pieceCid execution) (h_provider execution)
                   (sd_completedTime d)).

(** ** Construction

    [privateKeyToAccount] belongs to the [viem] package; it derives the
    account or throws on a malformed key. *)
Section Construction.
Variable privateKeyToAccount : string → JsError + Account.

(** [new OpenFlow(options)] *)
Definition constructor (options : OpenFlowOptions) : JsError + OpenFlow :=
  let privateKey := orNull truthyString (opt_privateKey options) in
  let baseUrl :=
    orElse truthyString (opt_baseUrl options)
           "https://workflow-api.openflow.sh" in
  let pollInterval := orElse truthyNumber (opt_pollInterval options) 2000 in
  let maxPollAttempts :=
    orElse truthyNumber (opt_maxPollAttempts options) 150 in
  match privateKey with
  | Some key =>
      match privateKeyToAccount key with
      | inl e => inl e
      | inr account =>
          let walletClient := createWalletClient account baseSepolia in
          inr (mkOpenFlow privateKey baseUrl pollInterval maxPollAttempts
                          (Some (wrapFetchWithPayment walletClient)))
      end
  | None =>
      inr (mkOpenFlow privateKey baseUrl pollInterval maxPollAttempts None)
  end.
End Construction.

(** ** Vocabulary of the statements *)

(** The request of a state query, as [_getWorkflowState] builds it. *)
Definition stateRequest (this : OpenFlow) (executionId : string) : Request :=
  mkRequest (baseUrl this +:+ "/workflow-state/" +:+ executionId)
            GET jsonHeaders None.

Definition isQuery (e : Event) : bool :=
  match e with
  | Call _ req => match req_method req with GET => true | POST => false end
  | Sleep _ => false
  end.

Definition isSubmission (e : Event) : bool :=
  match e with
  | Call _ req => match req_method req with POST => true | GET => false end
  | Sleep _ => false
  end.

Definition isCall (e : Event) : bool :=
  match e with
  | Call _ _ => true
  | Sleep _ => false
  end.

Definition queryCalls (t : list Event) : nat := length (List.filter isQuery t).
Definition submissionCalls (t : list Event) : nat :=
  length (List.filter isSubmission t).
Definition networkCalls (t : list Event) : nat := length (List.filter isCall t).

(** A scripted outcome that delivers payload [p]: success HTTP status, a
    JSON body, and the payload-level [success] flag set. *)
Definition yields (o : FetchOutcome) (p : Payload) : Prop :=
  match o with
  | Respond r => ok r = true ∧ r_json r = Some p ∧ p_success p = true
  | Reject _ => False
  end.

(** A non-success HTTP status, or a payload with [success = false]. *)
Definition queryFailure (o : FetchOutcome) : Prop :=
  match o with
  | Respond r =>
      ok r = false ∨ (∃ p, r_json r = Some p ∧ p_success p = false)
  | Reject _ => False
  end.

Definition terminal (status : string) : Prop :=
  status = "completed" ∨ status = "failed".

(** An outcome that makes the poll loop go round again: it delivers a
    state whose status is neither of the two terminal ones. *)
Definition keepsPolling (o : FetchOutcome) : Prop :=
  ∃ p, yields o p ∧ ¬ terminal (p_status p).

Definition stateOf (p : Payload) : WorkflowState :=
  mkState (p_executionId p) (p_workflowId p) (p_ipfsCid p) (p_status p)
          (p_data p).

Definition handleOf (p : Payload) : ExecutionHandle :=
  mkHandle (p_executionId p) (p_workflowId p) (p_ipfsCid p) (p_pieceCid p)
           (p_provider p) (p_status p).

(** What [n] rounds of the loop that each end in a sleep leave in the
    trace. *)
Fixpoint rounds (this : OpenFlow) (executionId : string) (n : nat)
  : list Event :=
  match n with
  | O => []
  | S n' =>
      Call GlobalFetch (stateRequest this executionId)
        :: Sleep (pollInterval this) :: rounds this executionId n'
  end.

(** The transport [_executeWorkflow] sends the submission through. *)
Definition submitVia (this : OpenFlow) : Transport :=
  match x402Fetch this with
  | Some f => SignedFetch f
  | None => GlobalFetch
  end.

Definition timeoutMessage (this : OpenFlow) : string :=
  "Workflow execution timeout after "
    +:+ pretty (maxPollAttempts this) +:+ " attempts".

(** The request of a submission, as [_executeWorkflow] builds it. *)
Definition submitRequest (this : OpenFlow) (slug : string) (input : Json)
    (xPayment : option string) (testMode : bool) : Request :=
  mkRequest
    (baseUrl this +:+ (if testMode then "/test-workflow" else "/workflow/:slug"))
    POST
    (match x402Fetch this with
     | Some _ => jsonHeaders
     | None => <["X-Payment" := headerValue xPayment]> jsonHeaders
     end)
    (Some (JObj [("slug", JStr slug); ("input", input)])).

(** The error [_executeWorkflow] throws on a response it rejects. *)
Definition submitError (r : Response) : JsError :=
  if ok r then
    Error ("Workflow execution failed: "
           +:+ orElse truthyString (r_json r ≫= p_error) "Unknown error")
  else
    Error ("Workflow execution failed: "
           +:+ pretty (r_status r) +:+ " - " +:+ r_text r).

(** What the client did between two worlds. *)
Definition since (w w' : World) : list Event :=
  drop (length (trace w)) (trace w').

(** The requests of the submissions in a trace, oldest first. *)
Definition submissions (t : list Event) : list Request :=
  omap (λ e, match e with
             | Call _ req =>
                 match req_method req with POST => Some req | GET => None end
             | Sleep _ => None
             end) t.

(** [run]'s guard: a payment method is available. *)
Definition hasPaymentMethod (this : OpenFlow) (config : WorkflowConfig) : bool :=
  negb (falsy (privateKey this) && falsy (cfg_xPayment config)).

(** The error [_getWorkflowState] throws on a response it rejects: the
    HTTP status and body text when the status is not a success one, the
    server-reported message when the payload says [success = false]. *)
Definition queryError (r : Response) : JsError :=
  if ok r then
    Error ("Failed to get workflow state: "
           +:+ orElse truthyString (r_json r ≫= p_error) "Unknown error")
  else
    Error ("Failed to get workflow state: "
           +:+ pretty (r_status r) +:+ " - " +:+ r_text r).

(** The error the loop throws on a state whose status is ["failed"]. *)
Definition failedError (d : StateData) : JsError :=
  Error ("Workflow execution failed: "
         +:+ orElse truthyString (sd_error d) "Unknown error").

(** ** Sample scenarios

    A client without a signing credential that gives up after three
    attempts, a caller-supplied payment header, and scripted server
    replies for execution ["e1"]. *)

Definition sampleOptions : OpenFlowOptions :=
  mkOptions None (Some "http://localhost:3000") None (Some 3).

Definition sampleClient : OpenFlow :=
  mkOpenFlow None "http://localhost:3000" 2000 3 None.

Definition sampleConfig (testMode : bool) : WorkflowConfig :=
  mkConfig (Some (JObj [("x", JNum 1)])) (Some "signed-payment") (Some testMode).

Definition okReply (p : Payload) : FetchOutcome :=
  Respond (mkResponse 200 "" (Some p)).

Definition sampleAck : Payload :=
  mkPayload true None "e1" "demo-workflow" "cid-0" "piece-1"
            "https://provider.example" "processing" None.

Definition sampleData (status : string) (output : option Json)
    (error : option string) : StateData :=
  mkStateData status "demo-workflow" "e1" (JObj [("x", JNum 1)]) output
              (Some "2025-01-01T00:00:00Z")
              (if decide (status = "completed")
               then Some "2025-01-01T00:00:04Z" else None)
              error.

Definition sampleState (status : string) (output : option Json)
    (error : option string) : Payload :=
  mkPayload true None "e1" "demo-workflow" "cid-1" "" "" status
            (Some (sampleData status output error)).

Definition processing : FetchOutcome := okReply (sampleState "processing" None None).
Definition completed : FetchOutcome :=
  okReply (sampleState "completed" (Some (JObj [("y", JNum 2)])) None).
Definition failed : FetchOutcome :=
  okReply (sampleState "failed" None (Some "bad input")).
Definition unavailable : Response := mkResponse 503 "Service Unavailable" None.

Definition freshWorld (script : list FetchOutcome) : World := mkWorld script [].

(** The delays the client has handed to [setTimeout] through [_sleep],
    added up, in milliseconds. *)
Definition requestedMs (t : list Event) : Z :=
  foldr (λ e total, match e with
                    | Sleep ms => ms + total
                    | Call _ _ => total
                    end) 0 t.

(** [Number.isSafeInteger]: the integers a JavaScript number holds exactly.
    On these the counter of the loop counts as an integer does and the
    template literal prints all the digits. *)
Definition isSafeInteger (n : Z) : bool :=
  (- (2 ^ 53 - 1) <=? n) && (n <=? 2 ^ 53 - 1).

(** The delays [setTimeout] honours as given: from 1 ms to 2^31 - 1 ms.  The
    timer waits for such a delay; any other one it replaces by 1 ms. *)
Definition isTimerDelay (ms : Z) : bool :=
  (1 <=? ms) && (ms <=? 2 ^ 31 - 1).

(** What the constructor makes of a truthy key once the account is derived. *)
Definition signerOf (account : Account) : X402Fetch :=
  wrapFetchWithPayment (createWalletClient account baseSepolia).

(** More of the sample world: a key derivation that accepts hexadecimal
    keys only, a client that signs, and replies of a server in trouble. *)
Definition sampleDerive (key : string) : JsError + Account :=
  if String.prefix "0x" key then inr (LocalAccount key)
  else inl (Error "invalid private key").

Definition signingClient : OpenFlow :=
  mkOpenFlow (Some "0xabc") "http://localhost:3000" 2000 3
             (Some (signerOf (LocalAccount "0xabc"))).

Definition impatientClient : OpenFlow :=
  mkOpenFlow None "http://localhost:3000" 2000 (-1) None.

Definition paymentRequired : Response :=
  mkResponse 402 "Payment Required" None.

Definition refused : Response :=
  mkResponse 200 ""
    (Some (mkPayload false (Some "unknown workflow") "" "" "" "" "" "" None)).

Definition dropped : JsError := TypeError "fetch failed".

Definition completedWithoutData : Payload :=
  mkPayload true None "e1" "demo-workflow" "cid-1" "" "" "completed" None.

Definition failedWithoutData : Payload :=
  mkPayload true None "e1" "demo-workflow" "cid-1" "" "" "failed" None.

(** ** Basic facts about the monad and the transport *)

Lemma bind_run {A B} (m : M A) (f : A → M B) (w : World) :
  (m ≫= f) w =
  match m w with
  | (inl e, w') => (inl e, w')
  | (inr x, w') => f x w'
  end.
Proof. reflexivity. Qed.

Lemma call_settles via req w :
  call via req w =
  (match head (pending w) with
   | Some (Respond r) => inr r
   | Some (Reject e) => inl e
   | None => inl (TypeError "fetch failed")
   end,
   mkWorld (tail (pending w)) (trace w ++ [Call via req])).
Proof.
  unfold call, record. destruct (pending w) as [|[r|e] rest]; reflexivity.
Qed.

Lemma pollLoop_step this executionId attempts :
  pollLoop this executionId attempts =
  if decide (attempts < maxPollAttempts this) then
    state ← _getWorkflowState this executionId;
    if decide (st_status state = "completed") then mret state
    else if decide (st_status state = "failed") then
      d ← dataOf state "error";
      throw (Error ("Workflow execution failed: "
                    +:+ orElse truthyString (sd_error d) "Unknown error"))
    else
      _ ← _sleep (pollInterval this);
      pollLoop this executionId (attempts + 1)
  else throw (Error (timeoutMessage this)).
Proof.
  rewrite pollLoop_equation_1.
  destruct (decide (attempts < maxPollAttempts this)); reflexivity.
Qed.

(** ** The single-shot query *)

(** Whatever the server answers, a query is one [GET] through the global
    [fetch], and it consumes one scripted outcome. *)
Lemma getWorkflowState_run this executionId w :
  _getWorkflowState this executionId w =
  (match head (pending w) with
   | Some (Respond r) =>
       if ok r then
         match r_json r with
         | Some p => if p_success p then inr (stateOf p)
                     else inl (queryError r)
         | None => inl (SyntaxError "Unexpected token in JSON")
         end
       else inl (queryError r)
   | Some (Reject e) => inl e
   | None => inl (TypeError "fetch failed")
   end,
   mkWorld (tail (pending w))
           (trace w ++ [Call GlobalFetch (stateRequest this executionId)])).
Proof.
  unfold _getWorkflowState, fetch. rewrite bind_run, call_settles.
  destruct (head (pending w)) as [[r|e]|]; try reflexivity.
  unfold queryError. destruct (ok r); simpl; [|reflexivity].
  rewrite bind_run. unfold json.
  destruct (r_json r) as [p|]; simpl; [|reflexivity].
  destruct (p_success p); reflexivity.
Qed.

Lemma getWorkflowState_yields this executionId w o rest p :
  pending w = o :: rest → yields o p →
  _getWorkflowState this executionId w =
  (inr (stateOf p),
   mkWorld rest (trace w ++ [Call GlobalFetch (stateRequest this executionId)])).
Proof.
  intros Hp Hy. rewrite getWorkflowState_run, Hp. simpl.
  destruct o as [r|e]; [|contradiction].
  destruct Hy as (-> & -> & ->). reflexivity.
Qed.

Lemma getWorkflowState_failure this executionId w r rest :
  pending w = Respond r :: rest → queryFailure (Respond r) →
  _getWorkflowState this executionId w =
  (inl (queryError r),
   mkWorld rest (trace w ++ [Call GlobalFetch (stateRequest this executionId)])).
Proof.
  intros Hp Hf. rewrite getWorkflowState_run, Hp. simpl.
  destruct (ok r) eqn:Hok; [|reflexivity].
  destruct Hf as [Hf|(p & -> & ->)]; [congruence|reflexivity].
Qed.

(** ** The poll loop *)

Lemma pollLoop_timeout this executionId attempts w :
  maxPollAttempts this ≤ attempts →
  pollLoop this executionId attempts w = (inl (Error (timeoutMessage this)), w).
Proof.
  intros H. rewrite pollLoop_step.
  destruct (decide (attempts < maxPollAttempts this)); [lia|reflexivity].
Qed.

Lemma pollLoop_completed this executionId attempts w o rest p :
  attempts < maxPollAttempts this →
  pending w = o :: rest → yields o p → p_status p = "completed" →
  pollLoop this executionId attempts w =
  (inr (stateOf p),
   mkWorld rest (trace w ++ [Call GlobalFetch (stateRequest this executionId)])).
Proof.
  intros Ha Hp Hy Hs. rewrite pollLoop_step.
  destruct (decide (attempts < maxPollAttempts this)); [|lia].
  rewrite bind_run, (getWorkflowState_yields _ _ _ _ _ _ Hp Hy). simpl.
  rewrite Hs. reflexivity.
Qed.

Lemma pollLoop_failed this executionId attempts w o rest p :
  attempts < maxPollAttempts this →
  pending w = o :: rest → yields o p → p_status p = "failed" →
  pollLoop this executionId attempts w =
  (match p_data p with
   | Some d => inl (failedError d)
   | None =>
       inl (TypeError "Cannot read properties of undefined (reading 'error')")
   end,
   mkWorld rest (trace w ++ [Call GlobalFetch (stateRequest this executionId)])).
Proof.
  intros Ha Hp Hy Hs. rewrite pollLoop_step.
  destruct (decide (attempts < maxPollAttempts this)); [|lia].
  rewrite bind_run, (getWorkflowState_yields _ _ _ _ _ _ Hp Hy). simpl.
  rewrite Hs. simpl. rewrite bind_run. unfold dataOf. simpl.
  destruct (p_data p); reflexivity.
Qed.

Lemma pollLoop_query_failure this executionId attempts w r rest :
  attempts < maxPollAttempts this →
  pending w = Respond r :: rest → queryFailure (Respond r) →
  pollLoop this executionId attempts w =
  (inl (queryError r),
   mkWorld rest (trace w ++ [Call GlobalFetch (stateRequest this executionId)])).
Proof.
  intros Ha Hp Hf. rewrite pollLoop_step.
  destruct (decide (attempts < maxPollAttempts this)); [|lia].
  rewrite bind_run, (getWorkflowState_failure _ _ _ _ _ Hp Hf). reflexivity.
Qed.

(** A prefix of outcomes that keep the loop polling is consumed one query
    and one sleep at a time, as long as attempts remain. *)
Lemma pollLoop_rounds this executionId pre :
  ∀ attempts w rest,
    Forall keepsPolling pre →
    attempts + Z.of_nat (length pre) ≤ maxPollAttempts this →
    pending w = pre ++ rest →
    pollLoop this executionId attempts w =
    pollLoop this executionId (attempts + Z.of_nat (length pre))
      (mkWorld rest (trace w ++ rounds this executionId (length pre))).
Proof.
  induction pre as [|o pre IH]; intros attempts w rest Hall Hle Hp.
  - simpl in *. rewrite Z.add_0_r, app_nil_r, <- Hp. by destruct w.
  - apply Forall_cons in Hall as [(p & Hy & Hnt) Hall].
    simpl length in *. rewrite pollLoop_step.
    destruct (decide (attempts < maxPollAttempts this)); [|lia].
    rewrite bind_run, (getWorkflowState_yields _ _ _ _ _ _ Hp Hy). simpl.
    destruct (decide (p_status p = "completed")) as [Hc|_];
      [exfalso; apply Hnt; by left|].
    destruct (decide (p_status p = "failed")) as [Hf|_];
      [exfalso; apply Hnt; by right|].
    rewrite bind_run. simpl.
    rewrite (IH (attempts + 1) _ rest Hall); [|lia|reflexivity].
    simpl. rewrite <- !app_assoc. simpl.
    by replace (attempts + 1 + Z.of_nat (length pre))
      with (attempts + Z.of_nat (S (length pre))) by lia.
Qed.

(** ** Counting calls in a trace *)

Lemma since_app w w' evs : trace w' = trace w ++ evs → since w w' = evs.
Proof. intros H. unfold since. by rewrite H, drop_app_length. Qed.

Lemma queryCalls_app t1 t2 :
  queryCalls (t1 ++ t2) = (queryCalls t1 + queryCalls t2)%nat.
Proof. unfold queryCalls. by rewrite List.filter_app, length_app. Qed.

Lemma submissionCalls_app t1 t2 :
  submissionCalls (t1 ++ t2) = (submissionCalls t1 + submissionCalls t2)%nat.
Proof. unfold submissionCalls. by rewrite List.filter_app, length_app. Qed.

Lemma queryCalls_rounds this executionId n :
  queryCalls (rounds this executionId n) = n.
Proof.
  induction n as [|n IH]; [reflexivity|].
  unfold queryCalls in *. simpl. by rewrite IH.
Qed.

Lemma submissionCalls_rounds this executionId n :
  submissionCalls (rounds this executionId n) = 0%nat.
Proof. induction n as [|n IH]; [reflexivity|]. exact IH. Qed.

(** ** The submission *)

Lemma executeWorkflow_run this slug input xPayment testMode w :
  _executeWorkflow this slug input xPayment testMode w =
  (match head (pending w) with
   | Some (Respond r) =>
       if ok r then
         match r_json r with
         | Some p => if p_success p then inr (handleOf p)
                     else inl (submitError r)
         | None => inl (SyntaxError "Unexpected token in JSON")
         end
       else inl (submitError r)
   | Some (Reject e) => inl e
   | None => inl (TypeError "fetch failed")
   end,
   mkWorld (tail (pending w))
     (trace w ++ [Call (submitVia this)
                       (submitRequest this slug input xPayment testMode)])).
Proof.
  unfold _executeWorkflow, fetch, submitVia, submitRequest.
  rewrite bind_run.
  destruct (x402Fetch this) as [f|]; rewrite call_settles;
    (destruct (head (pending w)) as [[r|e]|]; try reflexivity;
     unfold submitError; destruct (ok r); simpl; [|reflexivity];
     rewrite bind_run; unfold json;
     destruct (r_json r) as [p|]; simpl; [|reflexivity];
     destruct (p_success p); reflexivity).
Qed.

Lemma executeWorkflow_yields this slug input xPayment testMode w o rest p :
  pending w = o :: rest → yields o p →
  _executeWorkflow this slug input xPayment testMode w =
  (inr (handleOf p),
   mkWorld rest
     (trace w ++ [Call (submitVia this)
                       (submitRequest this slug input xPayment testMode)])).
Proof.
  intros Hp Hy. rewrite executeWorkflow_run, Hp. simpl.
  destruct o as [r|e]; [|contradiction].
  destruct Hy as (-> & -> & ->). reflexivity.
Qed.

(** ** What the loop does on every script *)

(** However the script goes, the loop only appends to the trace, it never
    submits, and a state it returns has status ["completed"]. *)
Lemma pollLoop_sound this executionId (n : nat) :
  ∀ attempts w r w',
    Z.to_nat (maxPollAttempts this - attempts) = n →
    pollLoop this executionId attempts w = (r, w') →
    (∃ evs, trace w' = trace w ++ evs ∧ submissionCalls evs = 0%nat)
    ∧ (∀ state, r = inr state → st_status state = "completed").
Proof.
  induction n as [|n IH]; intros attempts w r w' Hn; rewrite pollLoop_step;
    (destruct (decide (attempts < maxPollAttempts this)) as [Hlt|Hge];
     [|intros [= <- <-]; split; [exists []; by rewrite app_nil_r|done]]);
    [lia|].
  rewrite bind_run, getWorkflowState_run.
  set (q := Call GlobalFetch (stateRequest this executionId)).
  set (w1 := mkWorld _ _).
  destruct (match head (pending w) with Some _ => _ | None => _ end)
    as [e|state]; [intros [= <- <-]; split; [by exists [q]|done]|].
  destruct (decide (st_status state = "completed")) as [Hc|_].
  { intros [= <- <-]. split; [by exists [q]|]. by intros ? [= <-]. }
  destruct (decide (st_status state = "failed")) as [Hf|_].
  { rewrite bind_run. unfold dataOf.
    destruct (st_data state); intros [= <- <-]; (split; [by exists [q]|done]). }
  rewrite bind_run. simpl. intros Hrec.
  apply IH in Hrec as [(evs & Ht & Hs) Hst]; [|lia].
  split; [|exact Hst].
  exists (q :: Sleep (pollInterval this) :: evs). split; [|exact Hs].
  rewrite Ht. simpl. by rewrite <- !app_assoc.
Qed.

(** ** [run] *)

Lemma run_guarded this slug config :
  hasPaymentMethod this config = true →
  run this slug config =
  (execution ← _executeWorkflow this slug (default (JObj []) (cfg_input config))
                 (cfg_xPayment config) (default true (cfg_testMode config));
   result ← _pollForCompletion this (h_executionId execution);
   d ← dataOf result "output";
   mret (mkResult (h_executionId execution) (h_workflowId execution)
                  (st_status result) (sd_output d) (st_ipfsCid result)
                  (h_pieceCid execution) (h_provider execution)
                  (sd_completedTime d))).
Proof.
  unfold run, hasPaymentMethod.
  destruct (falsy (privateKey this) && falsy (cfg_xPayment config));
    [discriminate|reflexivity].
Qed.

(** Once the guard has passed, the first thing [run] does is the submission,
    and nothing after it is a submission. *)
Lemma run_submits this slug config w :
  hasPaymentMethod this config = true →
  ∃ r w' evs,
    run this slug config w = (r, w')
    ∧ since w w' =
        Call (submitVia this)
             (submitRequest this slug (default (JObj []) (cfg_input config))
                            (cfg_xPayment config)
                            (default true (cfg_testMode config))) :: evs
    ∧ submissionCalls evs = 0%nat.
Proof.
  intros Hpay. rewrite (run_guarded _ _ _ Hpay), bind_run, executeWorkflow_run.
  set (s := Call _ _). set (w1 := mkWorld _ _).
  destruct (match head (pending w) with Some _ => _ | None => _ end)
    as [e|execution].
  { exists (inl e), w1, []. split; [done|]. split; [|done]. by apply since_app. }
  rewrite bind_run. unfold _pollForCompletion.
  destruct (pollLoop this (h_executionId execution) 0 w1) as [r w2] eqn:Hpoll.
  destruct (pollLoop_sound _ _ _ _ _ _ _ eq_refl Hpoll) as [(evs & Ht & Hs) _].
  assert (Hsince : since w w2 = s :: evs).
  { apply since_app. rewrite Ht. simpl. by rewrite <- app_assoc. }
  destruct r as [e|result]; [by exists (inl e), w2, evs|].
  rewrite bind_run. unfold dataOf.
  destruct (st_data result) as [d|]; simpl; eauto 10.
Qed.

Lemma keepsPolling_okReply p :
  p_success p = true → ¬ terminal (p_status p) → keepsPolling (okReply p).
Proof. intros Hs Hnt. exists p. by repeat split. Qed.

(** The URL of the submission depends on the mode and on nothing else of
    the call: the slug does not occur in it. *)
Lemma run_submission_url this slug config w :
  hasPaymentMethod this config = true →
  ∃ r w' via req evs,
    run this slug config w = (r, w')
    ∧ since w w' = Call via req :: evs
    ∧ req_url req =
        baseUrl this +:+
        (if default true (cfg_testMode config)
         then "/test-workflow" else "/workflow/:slug").
Proof.
  intros Hpay. destruct (run_submits this slug config w Hpay)
    as (r & w' & evs & Hrun & Hsince & _).
  by eexists r, w', _, _, evs.
Qed.

(** ** Construction without a key *)

(** When the private key is left out or empty, [privateKeyToAccount] is not
    called and the constructor cannot throw. *)
Lemma constructor_without_key
    (privateKeyToAccount : string → JsError + Account) options :
  falsy (opt_privateKey options) = true →
  ∃ this,
    constructor privateKeyToAccount options = inr this
    ∧ falsy (privateKey this) = true.
Proof.
  intros Hkey. unfold constructor.
  assert (orNull truthyString (opt_privateKey options) = None) as ->.
  { destruct (opt_privateKey options) as [k|]; [|done]. simpl in *.
    by destruct (truthyString k). }
  by eexists.
Qed.

(** Rewrites the events between two worlds into their call counts. *)
Ltac count_calls :=
  erewrite since_app by (simpl; rewrite <- ?app_assoc; reflexivity);
  rewrite ?submissionCalls_app, ?queryCalls_app,
          ?submissionCalls_rounds, ?queryCalls_rounds.

(** ** Endpoint and body of the submission *)

(** C1 (the code departs from it).  In production mode the claim wants the
    slug substituted into the path, [/workflow/<slug>].  Here the client is
    run at slug ["demo"] with [testMode = false]: the one submission it
    posts goes to the literal path [/workflow/:slug], not to
    [/workflow/demo]; with [testMode = true] the same call goes to
    [/test-workflow], as claimed. *)
Theorem production_url_keeps_placeholder :
  (let w' := (run sampleClient "demo" (sampleConfig false)
                  (freshWorld [okReply sampleAck; completed])).2 in
   req_url <$> submissions (trace w')
     = ["http://localhost:3000/workflow/:slug"]
   ∧ req_url <$> submissions (trace w')
     ≠ ["http://localhost:3000/workflow/demo"])
  ∧ (let w' := (run sampleClient "demo" (sampleConfig true)
                    (freshWorld [okReply sampleAck; completed])).2 in
     req_url <$> submissions (trace w')
       = ["http://localhost:3000/test-workflow"]).
Proof. vm_compute. repeat split. discriminate. Qed.

(** C2 as stated fails: a production-mode run whose submission body is not
    [{input}], because it also carries the slug. *)
Lemma production_body_carries_slug :
  let w' := (run sampleClient "demo" (sampleConfig false)
                 (freshWorld [okReply sampleAck; completed])).2 in
  req_body <$> submissions (trace w')
    = [Some (JObj [("slug", JStr "demo"); ("input", JObj [("x", JNum 1)])])]
  ∧ req_body <$> submissions (trace w')
    ≠ [Some (JObj [("input", JObj [("x", JNum 1)])])].
Proof. vm_compute. split; [reflexivity|discriminate]. Qed.

(** C2 (amended).  Every run that passes the payment guard posts exactly one
    submission, and its JSON body is [{slug, input}] in test mode and in
    production mode alike ([input] defaulting to [{}]). *)
Theorem submission_body_is_slug_and_input this slug config w :
  hasPaymentMethod this config = true →
  ∃ r w' via req evs,
    run this slug config w = (r, w')
    ∧ since w w' = Call via req :: evs
    ∧ submissionCalls evs = 0%nat
    ∧ req_method req = POST
    ∧ req_body req =
        Some (JObj [("slug", JStr slug);
                    ("input", default (JObj []) (cfg_input config))]).
Proof.
  intros Hpay. destruct (run_submits this slug config w Hpay)
    as (r & w' & evs & Hrun & Hsince & Hs).
  by exists r, w', (submitVia this), (submitRequest this slug
    (default (JObj []) (cfg_input config)) (cfg_xPayment config)
    (default true (cfg_testMode config))), evs.
Qed.

(** ** The payment guard *)

(** C3.  A client constructed without a private key (left out, or empty),
    asked to run with no [xPayment] in the config, is constructed all
    right, and its [run] throws the configuration error at once: the world
    is returned untouched, so no submission and no status query was
    issued. *)
Theorem run_without_payment_method
    (privateKeyToAccount : string → JsError + Account)
    options slug config w :
  falsy (opt_privateKey options) = true →
  falsy (cfg_xPayment config) = true →
  ∃ this r w',
    constructor privateKeyToAccount options = inr this
    ∧ run this slug config w = (r, w')
    ∧ r = inl (Error "Either privateKey must be provided in OpenFlow constructor or xPayment header must be provided in config")
    ∧ w' = w
    ∧ networkCalls (since w w') = 0%nat.
Proof.
  intros Hkey Hpay.
  destruct (constructor_without_key privateKeyToAccount options Hkey)
    as (this & Hthis & Hnull).
  exists this. eexists _, w. split; [exact Hthis|].
  split; [|split; [reflexivity|split; [reflexivity|]]].
  - unfold run. by rewrite Hnull, Hpay.
  - unfold since. by rewrite drop_all.
Qed.

(** ** The single-shot query of [getState] *)

(** C8.  [getState] issues exactly one call, a [GET] of the state URL through
    the plain [fetch] whose headers hold no [X-Payment]; it consumes one
    scripted outcome whatever the status in it; and nothing but the base
    URL of the client influences it, so a client with or without a
    private key gets the same result. *)
Theorem getState_single_query this executionId w :
  ∃ r w' req,
    getState this executionId w = (r, w')
    ∧ since w w' = [Call GlobalFetch req]
    ∧ req_method req = GET
    ∧ req_url req = baseUrl this +:+ "/workflow-state/" +:+ executionId
    ∧ req_headers req !! "X-Payment" = None
    ∧ pending w' = tail (pending w)
    ∧ ∀ other,
        baseUrl other = baseUrl this →
        getState other executionId w = getState this executionId w.
Proof.
  unfold getState. rewrite getWorkflowState_run.
  eexists _, _, (stateRequest this executionId).
  split; [reflexivity|]. split; [by apply since_app|].
  repeat split. intros other Hb.
  rewrite !getWorkflowState_run. unfold stateRequest. by rewrite Hb.
Qed.

(** ** Defaults of the constructor *)

(** C10.  Every constructor call returns a client, the one exception being a
    non-empty private key on which [privateKeyToAccount] throws (then the
    constructor throws that error).  In the client each setting is the
    option given if that is truthy and the default otherwise: a poll
    interval of [0] (or none) becomes 2000, a maximum of [0] attempts (or
    none) becomes 150, an empty (or missing) base URL becomes the
    production URL, an empty private key becomes [null]; every other value
    is kept as given.  So neither the interval nor the number of attempts
    of a client is ever zero.  (Settings are integers here.) *)
Theorem constructor_defaults
    (privateKeyToAccount : string → JsError + Account) options :
  (∃ this,
     constructor privateKeyToAccount options = inr this
     ∧ pollInterval this =
       match opt_pollInterval options with
       | Some 0 | None => 2000
       | Some n => n
       end
     ∧ maxPollAttempts this =
       match opt_maxPollAttempts options with
       | Some 0 | None => 150
       | Some n => n
       end
     ∧ baseUrl this =
       match opt_baseUrl options with
       | Some "" | None => "https://workflow-api.openflow.sh"
       | Some url => url
       end
     ∧ privateKey this =
       match opt_privateKey options with
       | Some "" | None => None
       | Some key => Some key
       end
     ∧ pollInterval this ≠ 0 ∧ maxPollAttempts this ≠ 0 ∧ baseUrl this ≠ "")
  ∨ (∃ key e,
       opt_privateKey options = Some key
       ∧ key ≠ ""
       ∧ privateKeyToAccount key = inl e
       ∧ constructor privateKeyToAccount options = inl e).
Proof.
  unfold constructor.
  destruct (opt_privateKey options) as [[|c key]|] eqn:Hkey; simpl.
  2:{ destruct (privateKeyToAccount (String c key)) as [e|account] eqn:Hd.
      { right. by exists (String c key), e. }
      left. eexists. split; [reflexivity|]. simpl.
      destruct (opt_pollInterval options) as [[|n|n]|],
               (opt_maxPollAttempts options) as [[|m|m]|],
               (opt_baseUrl options) as [[|c' url]|];
        simpl; repeat split; done. }
  all: left; eexists; (split; [reflexivity|]); simpl;
    destruct (opt_pollInterval options) as [[|n|n]|],
             (opt_maxPollAttempts options) as [[|m|m]|],
             (opt_baseUrl options) as [[|c' url]|];
    simpl; repeat split; done.
Qed.

(** ** Outcomes of polling *)

(** C4.  The submission is acknowledged, the first [k - 1] polls deliver
    non-terminal states, the [k]-th delivers a ["completed"] state with its
    [data], and [k ≤ maxPollAttempts].  Then [run] returns the result whose
    [output] and [completedTime] are those of that state's [data], whose
    [ipfsCid] is that state's, and whose ids, [pieceCid] and [provider] are
    the acknowledgement's; it has made one submission and exactly [k]
    status queries, and has consumed nothing of the script beyond them. *)
Theorem run_completed this slug config w sub ack pre fin p d rest :
  hasPaymentMethod this config = true →
  pending w = sub :: pre ++ fin :: rest →
  yields sub ack →
  Forall keepsPolling pre →
  yields fin p → p_status p = "completed" → p_data p = Some d →
  Z.of_nat (S (length pre)) ≤ maxPollAttempts this →
  ∃ w',
    run this slug config w =
      (inr (mkResult (p_executionId ack) (p_workflowId ack) "completed"
                     (sd_output d) (p_ipfsCid p) (p_pieceCid ack)
                     (p_provider ack) (sd_completedTime d)),
       w')
    ∧ pending w' = rest
    ∧ submissionCalls (since w w') = 1%nat
    ∧ queryCalls (since w w') = S (length pre).
Proof.
  intros Hpay Hp Hsub Hpre Hfin Hs Hd Hk.
  rewrite (run_guarded _ _ _ Hpay), bind_run.
  rewrite (executeWorkflow_yields _ _ _ _ _ _ _ _ _ Hp Hsub).
  rewrite bind_run. unfold _pollForCompletion. simpl.
  erewrite (pollLoop_rounds _ _ pre 0) by (simpl; done || lia).
  erewrite pollLoop_completed by (simpl; done || lia).
  rewrite bind_run. unfold dataOf. simpl. rewrite Hd, Hs. simpl.
  eexists. split; [reflexivity|]. split; [reflexivity|].
  count_calls. split; [reflexivity|]. unfold queryCalls. simpl. lia.
Qed.

(** C5.  The first [k - 1] polls deliver non-terminal states and the [k]-th
    ([k ≤ maxPollAttempts]) delivers a state with status ["failed"] and
    [data].  Then the loop throws [Error] with the message
    [Workflow execution failed: ] followed by [data.error] (or
    [Unknown error] when that is missing or empty), after exactly [k]
    queries: whatever the script held after that state is still pending. *)
Theorem poll_failed this executionId w pre bad p d rest :
  pending w = pre ++ bad :: rest →
  Forall keepsPolling pre →
  yields bad p → p_status p = "failed" → p_data p = Some d →
  Z.of_nat (S (length pre)) ≤ maxPollAttempts this →
  ∃ w',
    _pollForCompletion this executionId w =
      (inl (Error ("Workflow execution failed: "
                   +:+ orElse truthyString (sd_error d) "Unknown error")),
       w')
    ∧ pending w' = rest
    ∧ queryCalls (since w w') = S (length pre).
Proof.
  intros Hp Hpre Hbad Hs Hd Hk. unfold _pollForCompletion.
  erewrite (pollLoop_rounds _ _ pre 0) by (done || lia).
  erewrite pollLoop_failed by (simpl; done || lia).
  rewrite Hd. eexists. split; [reflexivity|]. split; [reflexivity|].
  count_calls. unfold queryCalls. simpl. lia.
Qed.

(** C6.  Each of the first [maxPollAttempts] polls delivers a state whose
    status is some string other than ["completed"] and ["failed"].  Then
    the loop makes exactly [maxPollAttempts] queries, leaves the rest of
    the script alone, and throws [Error] with the message
    [Workflow execution timeout after <maxPollAttempts> attempts]. *)
Theorem poll_timeout this executionId w pre rest :
  pending w = pre ++ rest →
  Forall keepsPolling pre →
  Z.of_nat (length pre) = maxPollAttempts this →
  ∃ w',
    _pollForCompletion this executionId w =
      (inl (Error ("Workflow execution timeout after "
                   +:+ pretty (maxPollAttempts this) +:+ " attempts")),
       w')
    ∧ pending w' = rest
    ∧ Z.of_nat (queryCalls (since w w')) = maxPollAttempts this.
Proof.
  intros Hp Hpre Hk. unfold _pollForCompletion.
  erewrite (pollLoop_rounds _ _ pre 0) by (done || lia).
  rewrite pollLoop_timeout by lia.
  eexists. split; [reflexivity|]. split; [reflexivity|].
  by count_calls.
Qed.

(** C7.  The submission is acknowledged, the first [k - 1] polls deliver
    non-terminal states, and the [k]-th query ([k ≤ maxPollAttempts]) comes
    back with a non-success HTTP status or with [success = false].  Then
    the loop throws the very error of that query (status and body text,
    respectively the server-reported message), [run] throws it too, and
    both stop there: [k] queries in all, the rest of the script still
    pending. *)
Theorem query_failure_aborts this slug config w sub ack pre r rest :
  hasPaymentMethod this config = true →
  pending w = sub :: pre ++ Respond r :: rest →
  yields sub ack →
  Forall keepsPolling pre →
  queryFailure (Respond r) →
  Z.of_nat (S (length pre)) ≤ maxPollAttempts this →
  ∃ w1 w',
    _executeWorkflow this slug (default (JObj []) (cfg_input config))
        (cfg_xPayment config) (default true (cfg_testMode config)) w
      = (inr (handleOf ack), w1)
    ∧ _pollForCompletion this (p_executionId ack) w1 = (inl (queryError r), w')
    ∧ run this slug config w = (inl (queryError r), w')
    ∧ pending w' = rest
    ∧ queryCalls (since w w') = S (length pre)
    ∧ message (queryError r) =
        "Failed to get workflow state: " +:+
        (if ok r then orElse truthyString (r_json r ≫= p_error) "Unknown error"
         else pretty (r_status r) +:+ " - " +:+ r_text r).
Proof.
  intros Hpay Hp Hsub Hpre Hfail Hk.
  pose proof (executeWorkflow_yields this slug
    (default (JObj []) (cfg_input config)) (cfg_xPayment config)
    (default true (cfg_testMode config)) _ _ _ _ Hp Hsub) as Hexec.
  set (w1 := mkWorld _ _) in Hexec.
  assert (∃ w', pollLoop this (p_executionId ack) 0 w1 = (inl (queryError r), w')
                ∧ pending w' = rest
                ∧ queryCalls (since w w') = S (length pre))
    as (w' & Hpoll & Hrest & Hcount).
  { erewrite (pollLoop_rounds _ _ pre 0) by (simpl; done || lia).
    erewrite pollLoop_query_failure by (simpl; done || lia).
    eexists. split; [reflexivity|]. split; [reflexivity|].
    count_calls. unfold queryCalls. simpl. lia. }
  exists w1, w'. repeat split; try done.
  - rewrite (run_guarded _ _ _ Hpay), bind_run, Hexec, bind_run.
    unfold _pollForCompletion. simpl. by rewrite Hpoll.
  - unfold queryError. by destruct (ok r).
Qed.

(** ** The result invariant *)

(** C9.  Whenever [run] returns a result, the submission had succeeded, the
    poll loop had returned a state, that state's status is ["completed"],
    and so is the result's: on every other path of the loop [run] has
    thrown before building a result. *)
Theorem result_only_from_completed this slug config w res w' :
  run this slug config w = (inr res, w') →
  ∃ execution w1 state,
    _executeWorkflow this slug (default (JObj []) (cfg_input config))
        (cfg_xPayment config) (default true (cfg_testMode config)) w
      = (inr execution, w1)
    ∧ _pollForCompletion this (h_executionId execution) w1 = (inr state, w')
    ∧ st_status state = "completed"
    ∧ res_status res = "completed".
Proof.
  unfold run.
  destruct (falsy (privateKey this) && falsy (cfg_xPayment config));
    [discriminate|].
  rewrite bind_run.
  destruct (_executeWorkflow _ _ _ _ _ w) as [[e|execution] w1];
    [discriminate|].
  rewrite bind_run.
  destruct (_pollForCompletion this (h_executionId execution) w1)
    as [[e|state] w2] eqn:Hpoll; [discriminate|].
  rewrite bind_run. unfold dataOf.
  destruct (st_data state) as [d|]; [|discriminate].
  simpl. intros [= <- <-].
  destruct (pollLoop_sound _ _ _ _ _ _ _ eq_refl Hpoll) as [_ Hst].
  specialize (Hst state eq_refl).
  by exists execution, w1, state.
Qed.

(** ** The scenarios, run *)

(** Numbers appear in messages in decimal. *)
Example pretty_attempts : pretty (150 : Z) = "150" ∧ pretty (-3 : Z) = "-3".
Proof. split; reflexivity. Qed.

(** The sample client is what the constructor builds from the sample
    options. *)
Example sampleClient_constructed :
  constructor (λ key, inr (LocalAccount key)) sampleOptions = inr sampleClient.
Proof. reflexivity. Qed.

(** Poll 1 is ["processing"], poll 2 is ["completed"] with output
    [{"y": 2}]: the run resolves after exactly two queries. *)
Example scenario_two_polls :
  let '(r, w') := run sampleClient "demo" (sampleConfig true)
                      (freshWorld [okReply sampleAck; processing; completed]) in
  r = inr (mkResult "e1" "demo-workflow" "completed"
                   (Some (JObj [("y", JNum 2)])) "cid-1" "piece-1"
                   "https://provider.example" (Some "2025-01-01T00:00:04Z"))
  ∧ queryCalls (trace w') = 2%nat.
Proof. vm_compute. done. Qed.

(** Three attempts, every poll ["processing"]: the run rejects with the
    timeout message after exactly three queries, the fourth reply unread. *)
Example scenario_timeout :
  let '(r, w') := run sampleClient "demo" (sampleConfig true)
                      (freshWorld [okReply sampleAck; processing; processing;
                                   processing; completed]) in
  r = inl (Error "Workflow execution timeout after 3 attempts")
  ∧ queryCalls (trace w') = 3%nat
  ∧ pending w' = [completed].
Proof. vm_compute. done. Qed.

(** Poll 1 is ["failed"] with error ["bad input"]: one query, and the
    message carries the server's words. *)
Example scenario_failed :
  let '(r, w') := run sampleClient "demo" (sampleConfig true)
                      (freshWorld [okReply sampleAck; failed; completed]) in
  r = inl (Error "Workflow execution failed: bad input")
  ∧ queryCalls (trace w') = 1%nat.
Proof. vm_compute. done. Qed.

(** A ["failed"] state that lacks [data] surfaces as the runtime's own
    [TypeError]. *)
Example scenario_failed_without_data :
  (_pollForCompletion sampleClient "e1"
     (freshWorld [okReply (mkPayload true None "e1" "demo-workflow" "cid-1"
                                     "" "" "failed" None)])).1
  = inl (TypeError "Cannot read properties of undefined (reading 'error')").
Proof. vm_compute. done. Qed.

(** A maximum that is not positive: the loop gives up without a query. *)
Lemma poll_gives_up_at_once this executionId w :
  maxPollAttempts this ≤ 0 →
  _pollForCompletion this executionId w = (inl (Error (timeoutMessage this)), w).
Proof. intros H. by apply pollLoop_timeout. Qed.

(** ** The statements at the sample scenarios *)

Lemma sample_processing_keepsPolling : keepsPolling processing.
Proof.
  apply keepsPolling_okReply; [reflexivity|]. intros [H|H]; discriminate H.
Defined.

Lemma sample_yields status output error :
  yields (okReply (sampleState status output error))
         (sampleState status output error).
Proof. by repeat split. Defined.

(** C2 (amended) at a production-mode run. *)
Lemma submission_body_sample :
  ∃ r w' via req evs,
    run sampleClient "demo" (sampleConfig false)
        (freshWorld [okReply sampleAck; completed]) = (r, w')
    ∧ since (freshWorld [okReply sampleAck; completed]) w' = Call via req :: evs
    ∧ submissionCalls evs = 0%nat
    ∧ req_method req = POST
    ∧ req_body req =
        Some (JObj [("slug", JStr "demo"); ("input", JObj [("x", JNum 1)])]).
Proof.
  apply (submission_body_is_slug_and_input sampleClient "demo"
           (sampleConfig false)).
  reflexivity.
Defined.

(** C3 at a client built from no options and a run with no config. *)
Lemma run_without_payment_method_sample :
  ∃ this r w',
    constructor (λ key, inr (LocalAccount key)) (mkOptions None None None None)
      = inr this
    ∧ run this "demo" (mkConfig None None None) (freshWorld [okReply sampleAck])
      = (r, w')
    ∧ r = inl (Error "Either privateKey must be provided in OpenFlow constructor or xPayment header must be provided in config")
    ∧ w' = freshWorld [okReply sampleAck]
    ∧ networkCalls (since (freshWorld [okReply sampleAck]) w') = 0%nat.
Proof.
  apply (run_without_payment_method (λ key, inr (LocalAccount key))
           (mkOptions None None None None) "demo" (mkConfig None None None));
    reflexivity.
Defined.

(** C4 at the two-poll scenario, with one more reply left in the script. *)
Lemma run_completed_sample :
  ∃ w',
    run sampleClient "demo" (sampleConfig true)
        (freshWorld [okReply sampleAck; processing; completed; failed])
    = (inr (mkResult "e1" "demo-workflow" "completed"
                     (Some (JObj [("y", JNum 2)])) "cid-1" "piece-1"
                     "https://provider.example" (Some "2025-01-01T00:00:04Z")),
       w')
    ∧ pending w' = [failed]
    ∧ submissionCalls
        (since (freshWorld [okReply sampleAck; processing; completed; failed]) w')
      = 1%nat
    ∧ queryCalls
        (since (freshWorld [okReply sampleAck; processing; completed; failed]) w')
      = 2%nat.
Proof.
  apply (run_completed sampleClient "demo" (sampleConfig true)
           (freshWorld [okReply sampleAck; processing; completed; failed])
           (okReply sampleAck) sampleAck [processing] completed
           (sampleState "completed" (Some (JObj [("y", JNum 2)])) None)
           (sampleData "completed" (Some (JObj [("y", JNum 2)])) None)
           [failed]).
  - reflexivity.
  - reflexivity.
  - by repeat split.
  - repeat constructor. exact sample_processing_keepsPolling.
  - apply sample_yields.
  - reflexivity.
  - reflexivity.
  - simpl. lia.
Defined.

(** C5 with the failure at the second attempt. *)
Lemma poll_failed_sample :
  ∃ w',
    _pollForCompletion sampleClient "e1"
        (freshWorld [processing; failed; completed])
    = (inl (Error "Workflow execution failed: bad input"), w')
    ∧ pending w' = [completed]
    ∧ queryCalls (since (freshWorld [processing; failed; completed]) w') = 2%nat.
Proof.
  apply (poll_failed sampleClient "e1"
           (freshWorld [processing; failed; completed])
           [processing] failed (sampleState "failed" None (Some "bad input"))
           (sampleData "failed" None (Some "bad input")) [completed]).
  - reflexivity.
  - repeat constructor. exact sample_processing_keepsPolling.
  - apply sample_yields.
  - reflexivity.
  - reflexivity.
  - simpl. lia.
Defined.

(** C6 at three attempts, every poll ["processing"]. *)
Lemma poll_timeout_sample :
  ∃ w',
    _pollForCompletion sampleClient "e1"
        (freshWorld [processing; processing; processing; completed])
    = (inl (Error "Workflow execution timeout after 3 attempts"), w')
    ∧ pending w' = [completed]
    ∧ Z.of_nat
        (queryCalls
           (since (freshWorld [processing; processing; processing; completed])
                  w'))
      = 3.
Proof.
  apply (poll_timeout sampleClient "e1"
           (freshWorld [processing; processing; processing; completed])
           [processing; processing; processing] [completed]).
  - reflexivity.
  - repeat constructor; exact sample_processing_keepsPolling.
  - reflexivity.
Defined.

(** C7 with a 503 at the second query. *)
Lemma query_failure_aborts_sample :
  ∃ w1 w',
    _executeWorkflow sampleClient "demo" (JObj [("x", JNum 1)])
        (Some "signed-payment") true
        (freshWorld [okReply sampleAck; processing; Respond unavailable;
                     completed])
      = (inr (handleOf sampleAck), w1)
    ∧ _pollForCompletion sampleClient "e1" w1
      = (inl (queryError unavailable), w')
    ∧ run sampleClient "demo" (sampleConfig true)
          (freshWorld [okReply sampleAck; processing; Respond unavailable;
                       completed])
      = (inl (queryError unavailable), w')
    ∧ pending w' = [completed]
    ∧ queryCalls
        (since (freshWorld [okReply sampleAck; processing; Respond unavailable;
                            completed]) w')
      = 2%nat
    ∧ message (queryError unavailable)
      = "Failed to get workflow state: 503 - Service Unavailable".
Proof.
  apply (query_failure_aborts sampleClient "demo" (sampleConfig true)
           (freshWorld [okReply sampleAck; processing; Respond unavailable;
                        completed])
           (okReply sampleAck) sampleAck [processing] unavailable [completed]).
  - reflexivity.
  - reflexivity.
  - by repeat split.
  - repeat constructor. exact sample_processing_keepsPolling.
  - left. reflexivity.
  - simpl. lia.
Defined.

(** C9 at the two-poll scenario. *)
Lemma result_only_from_completed_sample :
  ∃ execution w1 state,
    _executeWorkflow sampleClient "demo" (JObj [("x", JNum 1)])
        (Some "signed-payment") true
        (freshWorld [okReply sampleAck; processing; completed])
      = (inr execution, w1)
    ∧ _pollForCompletion sampleClient (h_executionId execution) w1
      = (inr state,
         (run sampleClient "demo" (sampleConfig true)
              (freshWorld [okReply sampleAck; processing; completed])).2)
    ∧ st_status state = "completed"
    ∧ res_status
        (mkResult "e1" "demo-workflow" "completed"
                  (Some (JObj [("y", JNum 2)])) "cid-1" "piece-1"
                  "https://provider.example" (Some "2025-01-01T00:00:04Z"))
      = "completed".
Proof.
  apply (result_only_from_completed sampleClient "demo" (sampleConfig true)
           (freshWorld [okReply sampleAck; processing; completed])).
  vm_compute. reflexivity.
Defined.

(** The constructor at all-falsy options, and at options that mix a
    truthy base URL and a negative interval with a zero. *)
Example constructor_all_falsy :
  constructor sampleDerive (mkOptions (Some "") (Some "") (Some 0) (Some 0))
  = inr (mkOpenFlow None "https://workflow-api.openflow.sh" 2000 150 None).
Proof. reflexivity. Qed.

Example constructor_mixed :
  constructor sampleDerive
    (mkOptions None (Some "http://x") (Some (-5)) (Some 0))
  = inr (mkOpenFlow None "http://x" (-5) 150 None).
Proof. reflexivity. Qed.

(** * Further properties of the client *)

(** ** The shape of every poll *)

Lemma requestedMs_app t1 t2 : requestedMs (t1 ++ t2) = requestedMs t1 + requestedMs t2.
Proof.
  induction t1 as [|[via req|ms] t1 IH]; simpl; [done|exact IH|].
  rewrite IH. lia.
Qed.

Lemma requestedMs_rounds this executionId n :
  requestedMs (rounds this executionId n) = Z.of_nat n * pollInterval this.
Proof. induction n as [|n IH]; [done|]. simpl rounds. simpl requestedMs. lia. Qed.

Lemma networkCalls_app t1 t2 :
  networkCalls (t1 ++ t2) = (networkCalls t1 + networkCalls t2)%nat.
Proof. unfold networkCalls. by rewrite List.filter_app, length_app. Qed.

Lemma networkCalls_rounds this executionId n :
  networkCalls (rounds this executionId n) = n.
Proof.
  induction n as [|n IH]; [reflexivity|].
  unfold networkCalls in *. simpl. by rewrite IH.
Qed.

(** Whatever the script, the loop entered with [n] attempts left goes
    through some [k] full rounds and then either has used all attempts up
    and throws the timeout, or stops on one last query. *)
Lemma pollLoop_shape this executionId (n : nat) :
  ∀ attempts w,
    Z.to_nat (maxPollAttempts this - attempts) = n →
    ∃ k,
      (trace (pollLoop this executionId attempts w).2
         = trace w ++ rounds this executionId k
       ∧ k = n
       ∧ (pollLoop this executionId attempts w).1
         = inl (Error (timeoutMessage this)))
      ∨ (trace (pollLoop this executionId attempts w).2
           = trace w ++ rounds this executionId k
               ++ [Call GlobalFetch (stateRequest this executionId)]
         ∧ (k < n)%nat).
Proof.
  induction n as [|n IH]; intros attempts w Hn; rewrite pollLoop_step;
    destruct (decide (attempts < maxPollAttempts this)) as [Hlt|Hge];
    try lia.
  { exists 0%nat. left. simpl. by rewrite app_nil_r. }
  rewrite bind_run, getWorkflowState_run.
  set (q := Call GlobalFetch (stateRequest this executionId)).
  set (w1 := mkWorld _ _).
  destruct (match head (pending w) with Some _ => _ | None => _ end)
    as [e|state]; [exists 0%nat; right; split; [done|lia]|].
  destruct (decide (st_status state = "completed")) as [Hc|_];
    [exists 0%nat; right; split; [done|lia]|].
  destruct (decide (st_status state = "failed")) as [Hf|_].
  { rewrite bind_run. unfold dataOf.
    destruct (st_data state); exists 0%nat; right; (split; [done|lia]). }
  rewrite bind_run. simpl.
  destruct (IH (attempts + 1) (record (Sleep (pollInterval this)) w1))
    as (k & [(Ht & Hk & Hr)|(Ht & Hk)]); [lia| |]; exists (S k).
  - left. rewrite Ht, Hr. simpl. rewrite <- !app_assoc. simpl.
    by rewrite Hk.
  - right. rewrite Ht. simpl. rewrite <- !app_assoc. simpl.
    split; [done|lia].
Qed.

(** X4.  For a client whose [maxPollAttempts] is a safe integer, and for
    every script, polling leaves in the trace some whole rounds -- a [GET]
    of [/workflow-state/<executionId>] through the plain [fetch], then a
    call of [_sleep] with [pollInterval] -- followed either by nothing, and
    then all [maxPollAttempts] attempts are spent and the error is the
    timeout, or by one last such [GET] with attempts to spare.  So the
    loop never queries twice without a [_sleep] in between, never asks for
    any other delay than [pollInterval], and never calls anything but that
    one URL. *)
Theorem poll_trace_shape this executionId w :
  isSafeInteger (maxPollAttempts this) = true →
  ∃ k,
    (since w (_pollForCompletion this executionId w).2
       = rounds this executionId k
     ∧ k = Z.to_nat (maxPollAttempts this)
     ∧ (_pollForCompletion this executionId w).1
       = inl (Error (timeoutMessage this)))
    ∨ (since w (_pollForCompletion this executionId w).2
         = rounds this executionId k
             ++ [Call GlobalFetch (stateRequest this executionId)]
       ∧ (k < Z.to_nat (maxPollAttempts this))%nat).
Proof.
  intros _. unfold _pollForCompletion.
  destruct (pollLoop_shape this executionId
              (Z.to_nat (maxPollAttempts this)) 0 w) as (k & H); [f_equal; lia|].
  exists k. destruct H as [(Ht & Hk & Hr)|(Ht & Hk)]; [left|right];
    repeat split; try done; by apply since_app.
Qed.

(** ** The shape of every run *)

(** Past the guard, [run] is the submission followed, if that succeeded, by
    the poll of the acknowledged execution; building the result adds
    nothing to the trace. *)
Lemma run_decompose this slug config w :
  hasPaymentMethod this config = true →
  ∃ w1,
    trace w1 = trace w ++
      [Call (submitVia this)
            (submitRequest this slug (default (JObj []) (cfg_input config))
                           (cfg_xPayment config)
                           (default true (cfg_testMode config)))]
    ∧ pending w1 = tail (pending w)
    ∧ ((∃ e, _executeWorkflow this slug (default (JObj []) (cfg_input config))
                (cfg_xPayment config) (default true (cfg_testMode config)) w
              = (inl e, w1)
             ∧ run this slug config w = (inl e, w1))
       ∨ (∃ h, _executeWorkflow this slug (default (JObj []) (cfg_input config))
                 (cfg_xPayment config) (default true (cfg_testMode config)) w
               = (inr h, w1)
              ∧ (run this slug config w).2
                = (_pollForCompletion this (h_executionId h) w1).2
              ∧ ∀ e, (_pollForCompletion this (h_executionId h) w1).1 = inl e →
                     (run this slug config w).1 = inl e)).
Proof.
  intros Hpay. rewrite (run_guarded _ _ _ Hpay), bind_run, executeWorkflow_run.
  set (w1 := mkWorld _ _). exists w1. split; [done|]. split; [done|].
  destruct (match head (pending w) with Some _ => _ | None => _ end)
    as [e|h]; [left; by exists e|].
  right. exists h. split; [done|]. rewrite bind_run.
  destruct (_pollForCompletion this (h_executionId h) w1) as [[e|state] w2];
    [split; [done|by intros ? [= <-]]|].
  rewrite bind_run. unfold dataOf.
  destruct (st_data state); simpl; (split; [done|]); by intros ? [=].
Qed.

(** X5.  For a client whose [maxPollAttempts] is a safe integer, and
    whatever the configuration, the script and the outcome, one [run]
    posts at most one submission, issues at most [maxPollAttempts] status
    queries (none when that is not positive), and therefore at most
    [1 + maxPollAttempts] network calls in all. *)
Theorem run_is_bounded this slug config w :
  isSafeInteger (maxPollAttempts this) = true →
  (submissionCalls (since w (run this slug config w).2) ≤ 1)%nat
  ∧ (queryCalls (since w (run this slug config w).2)
       ≤ Z.to_nat (maxPollAttempts this))%nat
  ∧ (networkCalls (since w (run this slug config w).2)
       ≤ 1 + Z.to_nat (maxPollAttempts this))%nat.
Proof.
  intros _. destruct (hasPaymentMethod this config) eqn:Hpay.
  2:{ unfold run, hasPaymentMethod in *.
      destruct (falsy (privateKey this) && falsy (cfg_xPayment config));
        [|discriminate].
      simpl. unfold since. rewrite drop_all. repeat split; cbn; lia. }
  destruct (run_decompose this slug config w Hpay)
    as (w1 & Ht & _ & [(e & _ & ->)|(h & _ & -> & _)]).
  { simpl. erewrite since_app by exact Ht. repeat split; cbn; lia. }
  unfold _pollForCompletion.
  destruct (pollLoop_shape this (h_executionId h)
              (Z.to_nat (maxPollAttempts this)) 0 w1) as (k & H); [f_equal; lia|].
  match type of Ht with _ = _ ++ [?s] => set (sub := s) in * end.
  destruct H as [(Hp & Hk & _)|(Hp & Hk)];
    [rewrite (since_app w _ ([sub] ++ rounds this (h_executionId h) k))
       by (rewrite Hp, Ht, <- ?app_assoc; reflexivity)
    |rewrite (since_app w _ ([sub] ++ rounds this (h_executionId h) k
                               ++ [Call GlobalFetch
                                     (stateRequest this (h_executionId h))]))
       by (rewrite Hp, Ht, <- ?app_assoc; reflexivity)];
    rewrite ?submissionCalls_app, ?queryCalls_app, ?networkCalls_app,
            ?submissionCalls_rounds, ?queryCalls_rounds, ?networkCalls_rounds;
    cbn; repeat split; lia.
Qed.

(** ** Submissions that fail *)

(** X1.  When the server answers the submission with a status outside
    200-299, [run] throws [Workflow execution failed: <status> - <body>]
    and stops: the body is not parsed, no status query follows, and the
    rest of the script is left unread. *)
Theorem submission_http_failure this slug config w r rest :
  hasPaymentMethod this config = true →
  pending w = Respond r :: rest →
  ok r = false →
  ∃ w',
    run this slug config w =
      (inl (Error ("Workflow execution failed: "
                   +:+ pretty (r_status r) +:+ " - " +:+ r_text r)), w')
    ∧ pending w' = rest
    ∧ networkCalls (since w w') = 1%nat
    ∧ queryCalls (since w w') = 0%nat.
Proof.
  intros Hpay Hp Hok.
  rewrite (run_guarded _ _ _ Hpay), bind_run, executeWorkflow_run, Hp.
  simpl. unfold submitError. rewrite Hok.
  eexists. split; [reflexivity|]. split; [reflexivity|].
  erewrite since_app by reflexivity. by cbn.
Qed.

(** X2.  When the submission comes back with a success status but a
    payload whose [success] flag is false, [run] throws
    [Workflow execution failed: ] followed by the payload's [error], or by
    [Unknown error] when that is missing or empty; whatever ids the
    payload carries are ignored and no status query follows. *)
Theorem submission_refused this slug config w r p rest :
  hasPaymentMethod this config = true →
  pending w = Respond r :: rest →
  ok r = true → r_json r = Some p → p_success p = false →
  ∃ w',
    run this slug config w =
      (inl (Error ("Workflow execution failed: "
                   +:+ match p_error p with
                       | Some "" | None => "Unknown error"
                       | Some msg => msg
                       end)), w')
    ∧ pending w' = rest
    ∧ networkCalls (since w w') = 1%nat
    ∧ queryCalls (since w w') = 0%nat.
Proof.
  intros Hpay Hp Hok Hj Hs.
  rewrite (run_guarded _ _ _ Hpay), bind_run, executeWorkflow_run, Hp.
  simpl. unfold submitError. rewrite Hok, Hj, Hs. simpl.
  eexists. split.
  { by destruct (p_error p) as [[|c msg]|]. }
  split; [reflexivity|]. erewrite since_app by reflexivity. by cbn.
Qed.

(** ** Network faults *)

Lemma pollLoop_rejected this executionId attempts w e rest :
  attempts < maxPollAttempts this →
  pending w = Reject e :: rest →
  pollLoop this executionId attempts w =
  (inl e,
   mkWorld rest (trace w ++ [Call GlobalFetch (stateRequest this executionId)])).
Proof.
  intros Ha Hp. rewrite pollLoop_step.
  destruct (decide (attempts < maxPollAttempts this)); [|lia].
  by rewrite bind_run, getWorkflowState_run, Hp.
Qed.

(** X3.  When the transport itself rejects the submission, [run] rejects
    with that very error object, unwrapped, and does nothing more. *)
Theorem submission_fault_surfaces this slug config w e rest :
  hasPaymentMethod this config = true →
  pending w = Reject e :: rest →
  ∃ w',
    run this slug config w = (inl e, w')
    ∧ pending w' = rest
    ∧ networkCalls (since w w') = 1%nat.
Proof.
  intros Hpay Hp.
  rewrite (run_guarded _ _ _ Hpay), bind_run, executeWorkflow_run, Hp.
  simpl. eexists. split; [reflexivity|]. split; [reflexivity|].
  erewrite since_app by reflexivity. by cbn.
Qed.

(** X6.  When the transport rejects the [k]-th status query, after [k - 1]
    polls that delivered non-terminal states and with [k] within
    [maxPollAttempts], the loop and [run] reject with that very error
    object: there is no retry, [k] queries were made in all, and the rest
    of the script is still pending. *)
Theorem polling_fault_surfaces this slug config w sub ack pre e rest :
  hasPaymentMethod this config = true →
  pending w = sub :: pre ++ Reject e :: rest →
  yields sub ack →
  Forall keepsPolling pre →
  Z.of_nat (S (length pre)) ≤ maxPollAttempts this →
  ∃ w',
    run this slug config w = (inl e, w')
    ∧ pending w' = rest
    ∧ queryCalls (since w w') = S (length pre).
Proof.
  intros Hpay Hp Hsub Hpre Hk.
  rewrite (run_guarded _ _ _ Hpay), bind_run.
  rewrite (executeWorkflow_yields _ _ _ _ _ _ _ _ _ Hp Hsub).
  rewrite bind_run. unfold _pollForCompletion. simpl.
  erewrite (pollLoop_rounds _ _ pre 0) by (simpl; done || lia).
  erewrite pollLoop_rejected by (simpl; done || lia).
  eexists. split; [reflexivity|]. split; [reflexivity|].
  count_calls. unfold queryCalls. simpl. lia.
Qed.

(** ** Clients that the constructor built *)

(** X7.  The constructor throws only when a non-empty private key was given
    and [privateKeyToAccount] threw on it, and then it throws that error:
    no other option can make construction fail. *)
Theorem constructor_fails_only_on_key
    (privateKeyToAccount : string → JsError + Account) options e :
  constructor privateKeyToAccount options = inl e →
  ∃ key,
    opt_privateKey options = Some key
    ∧ key ≠ ""
    ∧ privateKeyToAccount key = inl e.
Proof.
  unfold constructor.
  destruct (opt_privateKey options) as [[|c key]|]; simpl; try discriminate.
  destruct (privateKeyToAccount (String c key)) as [e'|account] eqn:Hd;
    [|discriminate].
  intros [= <-]. by exists (String c key).
Qed.

(** X8.  A client the constructor returned holds the signing wrapper
    exactly when it holds a private key; the key it holds is never empty,
    and the wrapper is the one over the account derived from that key on
    the Base Sepolia chain. *)
Theorem constructed_client_invariant
    (privateKeyToAccount : string → JsError + Account) options this :
  constructor privateKeyToAccount options = inr this →
  match privateKey this with
  | Some key =>
      key ≠ ""
      ∧ opt_privateKey options = Some key
      ∧ ∃ account,
          privateKeyToAccount key = inr account
          ∧ x402Fetch this
            = Some (wrapFetchWithPayment
                      (createWalletClient account baseSepolia))
  | None => x402Fetch this = None ∧ falsy (opt_privateKey options) = true
  end.
Proof.
  unfold constructor.
  destruct (opt_privateKey options) as [[|c key]|]; simpl;
    try (intros [= <-]; by simpl).
  destruct (privateKeyToAccount (String c key)) as [e'|account] eqn:Hd;
    [discriminate|].
  intros [= <-]. simpl. repeat split; [done|]. by exists account.
Qed.

(** The headers of a submission. *)
Lemma submitRequest_headers this slug input xPayment testMode :
  req_headers (submitRequest this slug input xPayment testMode)
    !! "Content-Type" = Some "application/json"
  ∧ req_headers (submitRequest this slug input xPayment testMode)
      !! "X-Payment"
    = match x402Fetch this with
      | Some _ => None
      | None => Some (headerValue xPayment)
      end.
Proof.
  unfold submitRequest, jsonHeaders. simpl.
  destruct (x402Fetch this); split; done.
Qed.

(** X9.  A client built with a private key sends its submission through its
    own signing wrapper -- the one over the account derived from that key
    -- and the headers it passes are [Content-Type] and nothing else: an
    [xPayment] given in the config is not forwarded.  A client built
    without a key sends it through the plain [fetch], and the headers are
    then [Content-Type] and [X-Payment], the latter being the caller's
    non-empty [xPayment], verbatim. *)
Theorem constructed_client_submits
    (privateKeyToAccount : string → JsError + Account) options this
    slug config w :
  constructor privateKeyToAccount options = inr this →
  hasPaymentMethod this config = true →
  ∃ via req evs,
    since w (run this slug config w).2 = Call via req :: evs
    ∧ match privateKey this with
      | Some key =>
          ∃ account,
            privateKeyToAccount key = inr account
            ∧ via = SignedFetch (wrapFetchWithPayment
                                   (createWalletClient account baseSepolia))
            ∧ req_headers req = {[ "Content-Type" := "application/json" ]}
      | None =>
          via = GlobalFetch
          ∧ ∃ xPayment,
              cfg_xPayment config = Some xPayment
              ∧ xPayment ≠ ""
              ∧ req_headers req
                = <["X-Payment" := xPayment]>
                    {[ "Content-Type" := "application/json" ]}
      end.
Proof.
  intros Hc Hpay.
  destruct (run_submits this slug config w Hpay)
    as (r & w' & evs & Hrun & Hsince & _).
  rewrite Hrun. simpl. eexists _, _, evs. split; [exact Hsince|].
  clear Hrun Hsince.
  unfold constructor in Hc.
  unfold hasPaymentMethod, submitVia, submitRequest, jsonHeaders in *.
  destruct (opt_privateKey options) as [[|c key]|]; simpl in Hc.
  2:{ destruct (privateKeyToAccount (String c key)) as [e|account] eqn:Hd;
        [discriminate|].
      injection Hc as <-. simpl. by exists account. }
  all: injection Hc as <-; simpl in *; split; [done|];
    destruct (cfg_xPayment config) as [[|c xp]|]; try discriminate;
    by exists (String c xp).
Qed.

(** ** Edges of the poll loop *)

(** X10.  With a maximum of attempts that is a safe integer and not
    positive (the constructor keeps a negative setting as given), [run]
    still posts the submission, then throws the timeout without a single
    status query. *)
Theorem run_without_attempts this slug config w sub ack rest :
  hasPaymentMethod this config = true →
  isSafeInteger (maxPollAttempts this) = true →
  maxPollAttempts this ≤ 0 →
  pending w = sub :: rest →
  yields sub ack →
  ∃ w',
    run this slug config w =
      (inl (Error ("Workflow execution timeout after "
                   +:+ pretty (maxPollAttempts this) +:+ " attempts")), w')
    ∧ pending w' = rest
    ∧ submissionCalls (since w w') = 1%nat
    ∧ queryCalls (since w w') = 0%nat.
Proof.
  intros Hpay _ Hmax Hp Hsub.
  rewrite (run_guarded _ _ _ Hpay), bind_run.
  rewrite (executeWorkflow_yields _ _ _ _ _ _ _ _ _ Hp Hsub).
  rewrite bind_run. unfold _pollForCompletion.
  rewrite pollLoop_timeout by lia.
  eexists. split; [reflexivity|]. split; [reflexivity|].
  erewrite since_app by reflexivity. by cbn.
Qed.

(** X11.  When the [k]-th poll delivers a ["completed"] state that has no
    [data] object, the poll loop returns that state, but [run] then throws
    a [TypeError] while reading [result.data.output]: the caller gets no
    result although the workflow completed. *)
Theorem completed_without_data this slug config w sub ack pre fin p rest :
  hasPaymentMethod this config = true →
  pending w = sub :: pre ++ fin :: rest →
  yields sub ack →
  Forall keepsPolling pre →
  yields fin p → p_status p = "completed" → p_data p = None →
  Z.of_nat (S (length pre)) ≤ maxPollAttempts this →
  ∃ w1 e w',
    _executeWorkflow this slug (default (JObj []) (cfg_input config))
        (cfg_xPayment config) (default true (cfg_testMode config)) w
      = (inr (handleOf ack), w1)
    ∧ _pollForCompletion this (p_executionId ack) w1 = (inr (stateOf p), w')
    ∧ run this slug config w = (inl e, w')
    ∧ name e = "TypeError"
    ∧ queryCalls (since w w') = S (length pre).
Proof.
  intros Hpay Hp Hsub Hpre Hfin Hs Hd Hk.
  pose proof (executeWorkflow_yields this slug
    (default (JObj []) (cfg_input config)) (cfg_xPayment config)
    (default true (cfg_testMode config)) _ _ _ _ Hp Hsub) as Hexec.
  set (w1 := mkWorld _ _) in Hexec.
  assert (∃ w', pollLoop this (p_executionId ack) 0 w1 = (inr (stateOf p), w')
                ∧ queryCalls (since w w') = S (length pre))
    as (w' & Hpoll & Hcount).
  { erewrite (pollLoop_rounds _ _ pre 0) by (simpl; done || lia).
    erewrite pollLoop_completed by (simpl; done || lia).
    eexists. split; [reflexivity|].
    count_calls. unfold queryCalls. simpl. lia. }
  eexists w1, _, w'. split; [exact Hexec|]. split; [exact Hpoll|].
  split; [|split; [|exact Hcount]].
  - rewrite (run_guarded _ _ _ Hpay), bind_run, Hexec, bind_run.
    unfold _pollForCompletion. simpl. rewrite Hpoll, bind_run.
    unfold dataOf. simpl. rewrite Hd. reflexivity.
  - reflexivity.
Qed.

(** X12.  When the [k]-th poll delivers a ["failed"] state that has no
    [data] object, the loop does not throw its
    [Workflow execution failed] error: it throws a [TypeError] while
    reading [state.data.error].  It stops polling all the same. *)
Theorem failed_without_data this executionId w pre bad p rest :
  pending w = pre ++ bad :: rest →
  Forall keepsPolling pre →
  yields bad p → p_status p = "failed" → p_data p = None →
  Z.of_nat (S (length pre)) ≤ maxPollAttempts this →
  ∃ e w',
    _pollForCompletion this executionId w = (inl e, w')
    ∧ name e = "TypeError"
    ∧ pending w' = rest
    ∧ queryCalls (since w w') = S (length pre).
Proof.
  intros Hp Hpre Hbad Hs Hd Hk. unfold _pollForCompletion.
  erewrite (pollLoop_rounds _ _ pre 0) by (done || lia).
  erewrite pollLoop_failed by (simpl; done || lia).
  rewrite Hd. eexists _, _. split; [reflexivity|]. split; [reflexivity|].
  split; [reflexivity|]. count_calls. unfold queryCalls. simpl. lia.
Qed.

(** ** Delays asked of the timer *)

(** X13.  With a [pollInterval] the timer honours as given (1 ms to
    2^31 - 1 ms): a run whose [k]-th poll is the first to deliver a terminal
    status has asked the timer for [k - 1] delays of [pollInterval]
    milliseconds, [(k - 1) * pollInterval] in all, and what it did last
    was a query, not a sleep: a workflow that is terminal at the first
    poll costs no delay at all. *)
Theorem terminal_run_sleeps_between_polls
    this slug config w sub ack pre fin p rest :
  hasPaymentMethod this config = true →
  pending w = sub :: pre ++ fin :: rest →
  yields sub ack →
  Forall keepsPolling pre →
  yields fin p → terminal (p_status p) →
  Z.of_nat (S (length pre)) ≤ maxPollAttempts this →
  isTimerDelay (pollInterval this) = true →
  requestedMs (since w (run this slug config w).2)
    = Z.of_nat (length pre) * pollInterval this
  ∧ last (since w (run this slug config w).2)
    = Some (Call GlobalFetch (stateRequest this (p_executionId ack))).
Proof.
  intros Hpay Hp Hsub Hpre Hfin Hterm Hk _.
  destruct (run_decompose this slug config w Hpay)
    as (w1 & Ht & Hp1 & [(e & He & _)|(h & He & -> & _)]);
    rewrite (executeWorkflow_yields _ _ _ _ _ _ _ _ _ Hp Hsub) in He;
    [discriminate|].
  injection He as <- <-. unfold _pollForCompletion. simpl.
  erewrite (pollLoop_rounds _ _ pre 0) by (simpl; done || lia).
  set (w2 := mkWorld _ _).
  assert (trace (pollLoop this (p_executionId ack) (0 + Z.of_nat (length pre)) w2).2
          = trace w2 ++ [Call GlobalFetch (stateRequest this (p_executionId ack))])
    as Htr.
  { destruct Hterm as [Hc|Hf].
    - erewrite pollLoop_completed by (simpl; done || lia). reflexivity.
    - erewrite pollLoop_failed by (simpl; done || lia). reflexivity. }
  erewrite since_app by (rewrite Htr; simpl; rewrite <- !app_assoc; reflexivity).
  split.
  - rewrite !requestedMs_app, requestedMs_rounds. simpl. lia.
  - by rewrite !app_assoc, last_snoc.
Qed.

(** X14.  With a [pollInterval] the timer honours as given (1 ms to
    2^31 - 1 ms): a poll that times out after [maxPollAttempts] non-terminal
    states has asked the timer for [maxPollAttempts] delays of
    [pollInterval] milliseconds, [maxPollAttempts * pollInterval] in all;
    the loop sleeps once more after its last query, and only then
    throws. *)
Theorem timeout_sleeps_after_last_poll this executionId w pre rest :
  pending w = pre ++ rest →
  Forall keepsPolling pre →
  Z.of_nat (length pre) = maxPollAttempts this →
  0 < maxPollAttempts this →
  isTimerDelay (pollInterval this) = true →
  requestedMs (since w (_pollForCompletion this executionId w).2)
    = maxPollAttempts this * pollInterval this
  ∧ last (since w (_pollForCompletion this executionId w).2)
    = Some (Sleep (pollInterval this)).
Proof.
  intros Hp Hpre Hk Hpos _. unfold _pollForCompletion.
  erewrite (pollLoop_rounds _ _ pre 0) by (done || lia).
  rewrite pollLoop_timeout by lia. simpl.
  erewrite since_app by reflexivity.
  split; [rewrite requestedMs_rounds; lia|].
  destruct pre as [|o pre]; [simpl in Hk; lia|]. clear.
  simpl length. induction (length pre) as [|n IH]; [done|].
  by change (rounds this executionId (S (S n)))
    with ([Call GlobalFetch (stateRequest this executionId);
           Sleep (pollInterval this)] ++ rounds this executionId (S n)).
Qed.

(** ** What a run sends *)

(** X15.  A run whose config names neither [testMode] nor [input] is a
    test-mode run on the empty input: it posts [{slug, input: {}}] to
    [/test-workflow]. *)
Theorem bare_config_is_test_mode this slug xPayment w :
  hasPaymentMethod this (mkConfig None xPayment None) = true →
  ∃ via req evs,
    since w (run this slug (mkConfig None xPayment None) w).2
      = Call via req :: evs
    ∧ req_method req = POST
    ∧ req_url req = baseUrl this +:+ "/test-workflow"
    ∧ req_body req = Some (JObj [("slug", JStr slug); ("input", JObj [])]).
Proof.
  intros Hpay.
  destruct (run_submits this slug (mkConfig None xPayment None) w Hpay)
    as (r & w' & evs & Hrun & Hsince & _).
  rewrite Hrun. simpl. by eexists _, _, evs.
Qed.

Lemma rounds_queries this executionId k :
  Forall (λ e, isCall e = true →
               e = Call GlobalFetch (stateRequest this executionId))
         (rounds this executionId k).
Proof.
  induction k as [|k IH]; simpl; [constructor|].
  repeat constructor; [done|exact IH].
Qed.

(** X16.  Once the submission is acknowledged, every later network call of
    the run is a [GET] of [/workflow-state/<id>] for the [executionId] of
    the acknowledgement, through the plain [fetch] with [Content-Type] as
    its only header -- also for a client that signs its submissions, and
    whatever ids the polled states themselves carry. *)
Theorem run_queries_acknowledged_execution this slug config w sub ack rest :
  hasPaymentMethod this config = true →
  pending w = sub :: rest →
  yields sub ack →
  ∃ via req evs,
    since w (run this slug config w).2 = Call via req :: evs
    ∧ Forall (λ e, isCall e = true →
                   e = Call GlobalFetch
                         (mkRequest
                            (baseUrl this +:+ "/workflow-state/"
                               +:+ p_executionId ack)
                            GET {[ "Content-Type" := "application/json" ]}
                            None))
             evs.
Proof.
  intros Hpay Hp Hsub.
  destruct (run_decompose this slug config w Hpay)
    as (w1 & Ht & Hp1 & [(e & He & _)|(h & He & -> & _)]);
    rewrite (executeWorkflow_yields _ _ _ _ _ _ _ _ _ Hp Hsub) in He;
    [discriminate|].
  injection He as <- Hw1. unfold _pollForCompletion. simpl.
  destruct (pollLoop_shape this (p_executionId ack)
              (Z.to_nat (maxPollAttempts this)) 0 w1) as (k & H); [f_equal; lia|].
  pose proof (rounds_queries this (p_executionId ack) k) as Hr.
  destruct H as [(Hk & _)|(Hk & _)]; eexists _, _, _;
    (split; [apply since_app; rewrite Hk, Ht, <- app_assoc; reflexivity|]).
  - exact Hr.
  - apply Forall_app. split; [exact Hr|]. by repeat constructor.
Qed.

(** ** [getState] and the loop on the same reply *)

(** X17.  [getState] returns a delivered state whatever its status: given
    the very reply on which the poll loop throws
    [Workflow execution failed: ...], it returns the ["failed"] state as a
    value, having made the same single query. *)
Theorem getState_returns_failed_state this executionId w o p d rest :
  pending w = o :: rest →
  yields o p → p_status p = "failed" → p_data p = Some d →
  0 < maxPollAttempts this →
  ∃ w',
    getState this executionId w
      = (inr (mkState (p_executionId p) (p_workflowId p) (p_ipfsCid p)
                      "failed" (Some d)), w')
    ∧ _pollForCompletion this executionId w
      = (inl (Error ("Workflow execution failed: "
                     +:+ orElse truthyString (sd_error d) "Unknown error")),
         w').
Proof.
  intros Hp Hy Hs Hd Hmax. unfold getState, _pollForCompletion.
  rewrite (getWorkflowState_yields _ _ _ _ _ _ Hp Hy).
  erewrite pollLoop_failed by done.
  rewrite Hd. unfold stateOf. rewrite Hs, Hd. by eexists.
Qed.

(** X18.  [getState] on a reply it rejects: a status outside 200-299 gives
    [Failed to get workflow state: <status> - <body>] without the body
    being parsed, and a payload with [success = false] gives
    [Failed to get workflow state: ] followed by its [error] (or
    [Unknown error]); either way after one query. *)
Theorem getState_failure this executionId w r rest :
  pending w = Respond r :: rest →
  queryFailure (Respond r) →
  ∃ w',
    getState this executionId w
      = (inl (Error ("Failed to get workflow state: " +:+
                     (if ok r
                      then match r_json r ≫= p_error with
                           | Some "" | None => "Unknown error"
                           | Some msg => msg
                           end
                      else pretty (r_status r) +:+ " - " +:+ r_text r))), w')
    ∧ pending w' = rest
    ∧ networkCalls (since w w') = 1%nat.
Proof.
  intros Hp Hf. unfold getState.
  rewrite (getWorkflowState_failure _ _ _ _ _ Hp Hf).
  eexists. split.
  { unfold queryError. destruct (ok r); [|done].
    by destruct (r_json r ≫= p_error) as [[|c msg]|]. }
  split; [done|]. erewrite since_app by reflexivity. by cbn.
Qed.

(** ** The status of the acknowledgement *)

(** X19.  [run] never reads the [status] of the acknowledgement: whatever
    it says, ["completed"] and ["failed"] included, an acknowledged
    submission is followed by at least one status query as long as the
    maximum of attempts is positive. *)
Theorem acknowledged_run_polls this slug config w sub ack rest :
  hasPaymentMethod this config = true →
  pending w = sub :: rest →
  yields sub ack →
  0 < maxPollAttempts this →
  (1 ≤ queryCalls (since w (run this slug config w).2))%nat.
Proof.
  intros Hpay Hp Hsub Hmax.
  destruct (run_decompose this slug config w Hpay)
    as (w1 & Ht & Hp1 & [(e & He & _)|(h & He & -> & _)]);
    rewrite (executeWorkflow_yields _ _ _ _ _ _ _ _ _ Hp Hsub) in He;
    [discriminate|].
  injection He as <- Hw1. unfold _pollForCompletion. simpl.
  match type of Ht with _ = _ ++ [?s] => set (sub' := s) in * end.
  destruct (pollLoop_shape this (p_executionId ack)
              (Z.to_nat (maxPollAttempts this)) 0 w1) as (k & H); [f_equal; lia|].
  destruct H as [(Hk & Hn & _)|(Hk & _)];
    [rewrite (since_app w _ ([sub'] ++ rounds this (p_executionId ack) k))
       by (rewrite Hk, Ht, <- ?app_assoc; reflexivity)
    |rewrite (since_app w _ ([sub'] ++ rounds this (p_executionId ack) k
                               ++ [Call GlobalFetch
                                     (stateRequest this (p_executionId ack))]))
       by (rewrite Hk, Ht, <- ?app_assoc; reflexivity)];
    rewrite ?queryCalls_app, ?queryCalls_rounds; cbn; lia.
Qed.

(** ** The further properties at the sample scenarios *)

(** X1 at a 402 answer to the submission. *)
Lemma submission_http_failure_sample :
  ∃ w',
    run sampleClient "demo" (sampleConfig true)
        (freshWorld [Respond paymentRequired; processing])
    = (inl (Error "Workflow execution failed: 402 - Payment Required"), w')
    ∧ pending w' = [processing]
    ∧ networkCalls (since (freshWorld [Respond paymentRequired; processing]) w')
      = 1%nat
    ∧ queryCalls (since (freshWorld [Respond paymentRequired; processing]) w')
      = 0%nat.
Proof.
  apply (submission_http_failure sampleClient "demo" (sampleConfig true)
           (freshWorld [Respond paymentRequired; processing])
           paymentRequired [processing]); reflexivity.
Defined.

(** X2 at a submission the server refuses in the payload. *)
Lemma submission_refused_sample :
  ∃ w',
    run sampleClient "demo" (sampleConfig true)
        (freshWorld [Respond refused; processing])
    = (inl (Error "Workflow execution failed: unknown workflow"), w')
    ∧ pending w' = [processing]
    ∧ networkCalls (since (freshWorld [Respond refused; processing]) w') = 1%nat
    ∧ queryCalls (since (freshWorld [Respond refused; processing]) w') = 0%nat.
Proof.
  apply (submission_refused sampleClient "demo" (sampleConfig true)
           (freshWorld [Respond refused; processing]) refused
           (mkPayload false (Some "unknown workflow") "" "" "" "" "" "" None)
           [processing]); reflexivity.
Defined.

(** X3 at a connection that drops during the submission. *)
Lemma submission_fault_surfaces_sample :
  ∃ w',
    run sampleClient "demo" (sampleConfig true)
        (freshWorld [Reject dropped; processing])
    = (inl dropped, w')
    ∧ pending w' = [processing]
    ∧ networkCalls (since (freshWorld [Reject dropped; processing]) w') = 1%nat.
Proof.
  apply (submission_fault_surfaces sampleClient "demo" (sampleConfig true)
           (freshWorld [Reject dropped; processing]) dropped [processing]);
    reflexivity.
Defined.

(** X6 at a connection that drops during the second query. *)
Lemma polling_fault_surfaces_sample :
  ∃ w',
    run sampleClient "demo" (sampleConfig true)
        (freshWorld [okReply sampleAck; processing; Reject dropped; completed])
    = (inl dropped, w')
    ∧ pending w' = [completed]
    ∧ queryCalls
        (since (freshWorld [okReply sampleAck; processing; Reject dropped;
                            completed]) w')
      = 2%nat.
Proof.
  apply (polling_fault_surfaces sampleClient "demo" (sampleConfig true)
           (freshWorld [okReply sampleAck; processing; Reject dropped; completed])
           (okReply sampleAck) sampleAck [processing] dropped [completed]).
  - reflexivity.
  - reflexivity.
  - by repeat split.
  - repeat constructor. exact sample_processing_keepsPolling.
  - simpl. lia.
Defined.

(** X7 at a key the derivation rejects. *)
Lemma constructor_fails_only_on_key_sample :
  ∃ key,
    opt_privateKey (mkOptions (Some "abc") None None None) = Some key
    ∧ key ≠ ""
    ∧ sampleDerive key = inl (Error "invalid private key").
Proof.
  apply (constructor_fails_only_on_key sampleDerive
           (mkOptions (Some "abc") None None None)).
  reflexivity.
Defined.

(** X8 at a client built with a key. *)
Lemma constructed_client_invariant_sample :
  match privateKey signingClient with
  | Some key =>
      key ≠ ""
      ∧ opt_privateKey
          (mkOptions (Some "0xabc") (Some "http://localhost:3000") None (Some 3))
        = Some key
      ∧ ∃ account,
          sampleDerive key = inr account
          ∧ x402Fetch signingClient
            = Some (wrapFetchWithPayment
                      (createWalletClient account baseSepolia))
  | None =>
      x402Fetch signingClient = None
      ∧ falsy (opt_privateKey
                 (mkOptions (Some "0xabc") (Some "http://localhost:3000")
                            None (Some 3))) = true
  end.
Proof.
  apply (constructed_client_invariant sampleDerive
           (mkOptions (Some "0xabc") (Some "http://localhost:3000") None (Some 3))
           signingClient).
  reflexivity.
Defined.

(** X9 at a signing client whose caller also passes an [xPayment]. *)
Lemma constructed_client_submits_sample :
  ∃ via req evs,
    since (freshWorld [okReply sampleAck; completed])
          (run signingClient "demo" (sampleConfig true)
               (freshWorld [okReply sampleAck; completed])).2
      = Call via req :: evs
    ∧ match privateKey signingClient with
      | Some key =>
          ∃ account,
            sampleDerive key = inr account
            ∧ via = SignedFetch (wrapFetchWithPayment
                                   (createWalletClient account baseSepolia))
            ∧ req_headers req = {[ "Content-Type" := "application/json" ]}
      | None =>
          via = GlobalFetch
          ∧ ∃ xPayment,
              cfg_xPayment (sampleConfig true) = Some xPayment
              ∧ xPayment ≠ ""
              ∧ req_headers req
                = <["X-Payment" := xPayment]>
                    {[ "Content-Type" := "application/json" ]}
      end.
Proof.
  apply (constructed_client_submits sampleDerive
           (mkOptions (Some "0xabc") (Some "http://localhost:3000") None (Some 3))
           signingClient "demo" (sampleConfig true)); reflexivity.
Defined.

(** X10 at a client whose maximum is [-1]. *)
Lemma run_without_attempts_sample :
  ∃ w',
    run impatientClient "demo" (sampleConfig true)
        (freshWorld [okReply sampleAck; completed])
    = (inl (Error "Workflow execution timeout after -1 attempts"), w')
    ∧ pending w' = [completed]
    ∧ submissionCalls (since (freshWorld [okReply sampleAck; completed]) w')
      = 1%nat
    ∧ queryCalls (since (freshWorld [okReply sampleAck; completed]) w') = 0%nat.
Proof.
  apply (run_without_attempts impatientClient "demo" (sampleConfig true)
           (freshWorld [okReply sampleAck; completed])
           (okReply sampleAck) sampleAck [completed]).
  - reflexivity.
  - reflexivity.
  - simpl. lia.
  - reflexivity.
  - by repeat split.
Defined.

(** X11 at a completed state without [data], second poll. *)
Lemma completed_without_data_sample :
  ∃ w1 e w',
    _executeWorkflow sampleClient "demo" (JObj [("x", JNum 1)])
        (Some "signed-payment") true
        (freshWorld [okReply sampleAck; processing;
                     okReply completedWithoutData])
      = (inr (handleOf sampleAck), w1)
    ∧ _pollForCompletion sampleClient "e1" w1
      = (inr (stateOf completedWithoutData), w')
    ∧ run sampleClient "demo" (sampleConfig true)
          (freshWorld [okReply sampleAck; processing;
                       okReply completedWithoutData])
      = (inl e, w')
    ∧ name e = "TypeError"
    ∧ queryCalls
        (since (freshWorld [okReply sampleAck; processing;
                            okReply completedWithoutData]) w')
      = 2%nat.
Proof.
  apply (completed_without_data sampleClient "demo" (sampleConfig true)
           (freshWorld [okReply sampleAck; processing;
                        okReply completedWithoutData])
           (okReply sampleAck) sampleAck [processing]
           (okReply completedWithoutData) completedWithoutData []).
  - reflexivity.
  - reflexivity.
  - by repeat split.
  - repeat constructor. exact sample_processing_keepsPolling.
  - by repeat split.
  - reflexivity.
  - reflexivity.
  - simpl. lia.
Defined.

(** X12 at a failed state without [data], first poll. *)
Lemma failed_without_data_sample :
  ∃ e w',
    _pollForCompletion sampleClient "e1"
        (freshWorld [okReply failedWithoutData; completed])
    = (inl e, w')
    ∧ name e = "TypeError"
    ∧ pending w' = [completed]
    ∧ queryCalls (since (freshWorld [okReply failedWithoutData; completed]) w')
      = 1%nat.
Proof.
  apply (failed_without_data sampleClient "e1"
           (freshWorld [okReply failedWithoutData; completed])
           [] (okReply failedWithoutData) failedWithoutData [completed]).
  - reflexivity.
  - constructor.
  - by repeat split.
  - reflexivity.
  - reflexivity.
  - simpl. lia.
Defined.

(** X13 at the two-poll scenario: one delay of 2000 ms. *)
Lemma terminal_run_sleeps_between_polls_sample :
  requestedMs (since (freshWorld [okReply sampleAck; processing; completed])
                 (run sampleClient "demo" (sampleConfig true)
                      (freshWorld [okReply sampleAck; processing; completed])).2)
    = 1 * 2000
  ∧ last (since (freshWorld [okReply sampleAck; processing; completed])
                (run sampleClient "demo" (sampleConfig true)
                     (freshWorld [okReply sampleAck; processing; completed])).2)
    = Some (Call GlobalFetch (stateRequest sampleClient "e1")).
Proof.
  apply (terminal_run_sleeps_between_polls sampleClient "demo"
           (sampleConfig true)
           (freshWorld [okReply sampleAck; processing; completed])
           (okReply sampleAck) sampleAck [processing] completed
           (sampleState "completed" (Some (JObj [("y", JNum 2)])) None) []).
  - reflexivity.
  - reflexivity.
  - by repeat split.
  - repeat constructor. exact sample_processing_keepsPolling.
  - apply sample_yields.
  - left. reflexivity.
  - simpl. lia.
  - reflexivity.
Defined.

(** X14 at three attempts, every poll ["processing"]: 6000 ms asked for. *)
Lemma timeout_sleeps_after_last_poll_sample :
  requestedMs (since (freshWorld [processing; processing; processing; completed])
                 (_pollForCompletion sampleClient "e1"
                    (freshWorld [processing; processing; processing;
                                 completed])).2)
    = 3 * 2000
  ∧ last (since (freshWorld [processing; processing; processing; completed])
                (_pollForCompletion sampleClient "e1"
                   (freshWorld [processing; processing; processing;
                                completed])).2)
    = Some (Sleep 2000).
Proof.
  apply (timeout_sleeps_after_last_poll sampleClient "e1"
           (freshWorld [processing; processing; processing; completed])
           [processing; processing; processing] [completed]).
  - reflexivity.
  - repeat constructor; exact sample_processing_keepsPolling.
  - reflexivity.
  - simpl. lia.
  - reflexivity.
Defined.

(** X15 at a signing client and a config that is just [{}]. *)
Lemma bare_config_is_test_mode_sample :
  ∃ via req evs,
    since (freshWorld [okReply sampleAck; completed])
          (run signingClient "demo" (mkConfig None None None)
               (freshWorld [okReply sampleAck; completed])).2
      = Call via req :: evs
    ∧ req_method req = POST
    ∧ req_url req = "http://localhost:3000/test-workflow"
    ∧ req_body req = Some (JObj [("slug", JStr "demo"); ("input", JObj [])]).
Proof.
  apply (bare_config_is_test_mode signingClient "demo" None
           (freshWorld [okReply sampleAck; completed])).
  reflexivity.
Defined.

(** X16 at a signing client: its queries are plain. *)
Lemma run_queries_acknowledged_execution_sample :
  ∃ via req evs,
    since (freshWorld [okReply sampleAck; processing; completed])
          (run signingClient "demo" (sampleConfig true)
               (freshWorld [okReply sampleAck; processing; completed])).2
      = Call via req :: evs
    ∧ Forall (λ e, isCall e = true →
                   e = Call GlobalFetch
                         (mkRequest "http://localhost:3000/workflow-state/e1"
                            GET {[ "Content-Type" := "application/json" ]}
                            None))
             evs.
Proof.
  apply (run_queries_acknowledged_execution signingClient "demo"
           (sampleConfig true)
           (freshWorld [okReply sampleAck; processing; completed])
           (okReply sampleAck) sampleAck [processing; completed]).
  - reflexivity.
  - reflexivity.
  - by repeat split.
Defined.

(** X17 at the failed reply of the sample world. *)
Lemma getState_returns_failed_state_sample :
  ∃ w',
    getState sampleClient "e1" (freshWorld [failed])
      = (inr (mkState "e1" "demo-workflow" "cid-1" "failed"
                      (Some (sampleData "failed" None (Some "bad input")))), w')
    ∧ _pollForCompletion sampleClient "e1" (freshWorld [failed])
      = (inl (Error "Workflow execution failed: bad input"), w').
Proof.
  apply (getState_returns_failed_state sampleClient "e1" (freshWorld [failed])
           failed (sampleState "failed" None (Some "bad input"))
           (sampleData "failed" None (Some "bad input")) []).
  - reflexivity.
  - apply sample_yields.
  - reflexivity.
  - reflexivity.
  - simpl. lia.
Defined.

(** X18 at a 503. *)
Lemma getState_failure_sample :
  ∃ w',
    getState sampleClient "e1" (freshWorld [Respond unavailable; completed])
      = (inl (Error "Failed to get workflow state: 503 - Service Unavailable"),
         w')
    ∧ pending w' = [completed]
    ∧ networkCalls (since (freshWorld [Respond unavailable; completed]) w')
      = 1%nat.
Proof.
  apply (getState_failure sampleClient "e1"
           (freshWorld [Respond unavailable; completed]) unavailable [completed]).
  - reflexivity.
  - left. reflexivity.
Defined.

(** X19 at an acknowledgement that already says ["completed"]. *)
Lemma acknowledged_run_polls_sample :
  (1 ≤ queryCalls
         (since (freshWorld [okReply completedWithoutData; processing])
                (run sampleClient "demo" (sampleConfig true)
                     (freshWorld [okReply completedWithoutData; processing])).2))%nat.
Proof.
  apply (acknowledged_run_polls sampleClient "demo" (sampleConfig true)
           (freshWorld [okReply completedWithoutData; processing])
           (okReply completedWithoutData) completedWithoutData [processing]).
  - reflexivity.
  - reflexivity.
  - by repeat split.
  - simpl. lia.
Defined.

(** X4 at a poll that ends on a failed state at the second attempt. *)
Lemma poll_trace_shape_sample :
  ∃ k,
    (since (freshWorld [processing; failed; completed])
           (_pollForCompletion sampleClient "e1"
              (freshWorld [processing; failed; completed])).2
       = rounds sampleClient "e1" k
     ∧ k = Z.to_nat (maxPollAttempts sampleClient)
     ∧ (_pollForCompletion sampleClient "e1"
          (freshWorld [processing; failed; completed])).1
       = inl (Error (timeoutMessage sampleClient)))
    ∨ (since (freshWorld [processing; failed; completed])
             (_pollForCompletion sampleClient "e1"
                (freshWorld [processing; failed; completed])).2
         = rounds sampleClient "e1" k
             ++ [Call GlobalFetch (stateRequest sampleClient "e1")]
       ∧ (k < Z.to_nat (maxPollAttempts sampleClient))%nat).
Proof.
  apply (poll_trace_shape sampleClient "e1"
           (freshWorld [processing; failed; completed])).
  reflexivity.
Defined.

(** X5 at a run that times out after three attempts. *)
Lemma run_is_bounded_sample :
  (submissionCalls
     (since (freshWorld [okReply sampleAck; processing; processing; processing])
            (run sampleClient "demo" (sampleConfig true)
                 (freshWorld [okReply sampleAck; processing; processing;
                              processing])).2) ≤ 1)%nat
  ∧ (queryCalls
       (since (freshWorld [okReply sampleAck; processing; processing; processing])
              (run sampleClient "demo" (sampleConfig true)
                   (freshWorld [okReply sampleAck; processing; processing;
                                processing])).2)
       ≤ Z.to_nat (maxPollAttempts sampleClient))%nat
  ∧ (networkCalls
       (since (freshWorld [okReply sampleAck; processing; processing; processing])
              (run sampleClient "demo" (sampleConfig true)
                   (freshWorld [okReply sampleAck; processing; processing;
                                processing])).2)
       ≤ 1 + Z.to_nat (maxPollAttempts sampleClient))%nat.
Proof.
  apply (run_is_bounded sampleClient "demo" (sampleConfig true)
           (freshWorld [okReply sampleAck; processing; processing; processing])).
  reflexivity.
Defined.
